(** * verizonmessages2sms: a shallow embedding of the row-to-record pipeline

    The development follows [verizonmessages2sms.py]: the timestamp
    converter, the phone normalizer, the record assembler
    ([_message_row_to_attrs]), the contacts reader and the part of [main]
    that ties them together.  Every definition keeps the name of the
    function it embeds. *)

From Stdlib Require Import ZArith String Ascii List Bool Lia.
From Stdlib Require Import SpecFloat DecimalString DecimalFacts DecimalPos.
From stdpp Require Import gmap strings.

Local Open Scope string_scope.
Local Open Scope Z_scope.

(** ** Exceptions and results

    A Python call either returns a value or raises. *)

Inductive exn : Type :=
  | ZeroDivisionError
  | OverflowError
  | ValueError
  | AttributeError
  | TypeError
  | NumberParseException.

Inductive result (A : Type) : Type :=
  | Ok (a : A)
  | Raise (e : exn).

Arguments Ok {A} a.
Arguments Raise {A} e.

(** ** Numbers

    The script runs on Python 2.6+ and on Python 3 (its header says so and
    its interpreter line asks for Python 3).  The two differ on [/] between
    two ints: Python 2 floors, Python 3 returns the correctly rounded
    binary64 quotient.  Floats are IEEE 754 binary64 values, given by the
    Standard Library's [spec_float] with [prec = 53] and [emax = 1024]. *)

Module PyNum.

Inductive version : Type := Py2 | Py3.

Inductive number : Type :=
  | PyInt (z : Z)
  | PyFloat (f : spec_float).

Definition prec : Z := 53.
Definition emax : Z := 1024.

Definition finite_or_overflow (f : spec_float) : result spec_float :=
  match f with
  | S754_infinity _ => Raise OverflowError
  | _ => Ok f
  end.

(** [float(z)]: nearest binary64, ties to even; OverflowError when too large. *)
Definition float_of_int (z : Z) : result spec_float :=
  finite_or_overflow (binary_normalize prec emax z 0 false).

(** The int [z] as an exact (not yet rounded) dyadic number. *)
Definition exact_of_int (z : Z) : spec_float :=
  match z with
  | Z0 => S754_zero false
  | Zpos p => S754_finite false p 0
  | Zneg p => S754_finite true p 0
  end.

(** Python 3 [a / b] on ints: the exact quotient rounded once. *)
Definition int_true_divide (a b : Z) : result spec_float :=
  if b =? 0 then Raise ZeroDivisionError
  else finite_or_overflow (SFdiv prec emax (exact_of_int a) (exact_of_int b)).

(** [x / b] for an int [b]. *)
Definition div (v : version) (x : number) (b : Z) : result number :=
  match x with
  | PyInt a =>
      match v with
      | Py2 => if b =? 0 then Raise ZeroDivisionError else Ok (PyInt (a / b))
      | Py3 =>
          match int_true_divide a b with
          | Ok f => Ok (PyFloat f)
          | Raise e => Raise e
          end
      end
  | PyFloat f =>
      match float_of_int b with
      | Ok g => if b =? 0 then Raise ZeroDivisionError
                else Ok (PyFloat (SFdiv prec emax f g))
      | Raise e => Raise e
      end
  end.

(** [x - b] for an int [b]. *)
Definition sub (x : number) (b : Z) : result number :=
  match x with
  | PyInt a => Ok (PyInt (a - b))
  | PyFloat f =>
      match float_of_int b with
      | Ok g => Ok (PyFloat (SFsub prec emax f g))
      | Raise e => Raise e
      end
  end.

(** [int(f)] on a float truncates toward zero. *)
Definition trunc (f : spec_float) : result Z :=
  match f with
  | S754_zero _ => Ok 0
  | S754_infinity _ => Raise OverflowError
  | S754_nan => Raise ValueError
  | S754_finite s m e =>
      Ok (cond_Zopp s (if 0 <=? e then Z.pos m * 2 ^ e
                       else Z.pos m / 2 ^ (- e)))
  end.

(** [int(x)]. *)
Definition int (x : number) : result Z :=
  match x with
  | PyInt z => Ok z
  | PyFloat f => trunc f
  end.

(** [math.floor] of a float, used by the platform clock below. *)
Definition floor (f : spec_float) : result Z :=
  match f with
  | S754_zero _ => Ok 0
  | S754_infinity _ => Raise OverflowError
  | S754_nan => Raise ValueError
  | S754_finite s m e =>
      Ok (if 0 <=? e then cond_Zopp s (Z.pos m * 2 ^ e)
          else cond_Zopp s (Z.pos m) / 2 ^ (- e))
  end.

(** [str(z)] for an int. *)
Definition str (z : Z) : string := NilZero.string_of_int (Z.to_int z).

End PyNum.

Import PyNum.

(** ** Timestamp converter (source lines 69-76) *)

Definition _created_on_to_timestamp_ms (v : version) (created_on : Z)
  : result number :=
  match div v (PyInt created_on) 10000 with
  | Ok q => sub q 62167219200000
  | Raise e => Raise e
  end.

(** ** Strings

    A Python string is modelled by [string], each character standing for
    the code point of its number (0 to 255); the functions below are the
    library calls the script makes. *)

Module PyStr.

(** A character of the class [[0-9]]. *)
Definition is_digit (c : ascii) : bool :=
  let n := Z.of_N (N_of_ascii c) in (48 <=? n) && (n <=? 57).

(** [str.isspace] and the class [\s] on one character: the white space of
    Unicode among the code points below 256, which is tab to carriage
    return, the four separators, the space, next line (U+0085) and the
    no-break space (U+00A0). *)
Definition isspace (c : ascii) : bool :=
  let n := Z.of_N (N_of_ascii c) in
  ((9 <=? n) && (n <=? 13)) || ((28 <=? n) && (n <=? 32))
  || (n =? 133) || (n =? 160).

Fixpoint filter (p : ascii -> bool) (s : string) : string :=
  match s with
  | EmptyString => EmptyString
  | String c s' => if p c then String c (filter p s') else filter p s'
  end.

Fixpoint forallb (p : ascii -> bool) (s : string) : bool :=
  match s with
  | EmptyString => true
  | String c s' => p c && forallb p s'
  end.

Definition len (s : string) : Z := Z.of_nat (String.length s).

(** [re.sub("[^0-9]+", "", s)]: every maximal run of characters outside
    [[0-9]] is replaced by the empty string, which keeps exactly the
    characters of [[0-9]], in order. *)
Definition re_sub_non_digits (s : string) : string := filter is_digit s.

(** [s.startswith(p)]. *)
Fixpoint startswith (p s : string) : bool :=
  match p, s with
  | EmptyString, _ => true
  | String a p', String b s' => Ascii.eqb a b && startswith p' s'
  | String _ _, EmptyString => false
  end.

(** [s.replace(old, new)] for a non-empty [old]: occurrences are found
    left to right and do not overlap.  [skip] counts the characters of
    the occurrence just replaced that are still to be passed over. *)
Fixpoint replace_from (skip : nat) (old new s : string) : string :=
  match s with
  | EmptyString => EmptyString
  | String c s' =>
      match skip with
      | S k => replace_from k old new s'
      | O =>
          if startswith old s
          then new ++ replace_from (Nat.pred (String.length old)) old new s'
          else String c (replace_from O old new s')
      end
  end.

Definition replace (old new s : string) : string := replace_from O old new s.

(** [s.lstrip()]. *)
Fixpoint lstrip (s : string) : string :=
  match s with
  | EmptyString => EmptyString
  | String c s' => if isspace c then lstrip s' else s
  end.

(** The first whitespace-free run of [s] and what follows it. *)
Fixpoint span_token (s : string) : string * string :=
  match s with
  | EmptyString => (EmptyString, EmptyString)
  | String c s' =>
      if isspace c then (EmptyString, s)
      else let '(t, r) := span_token s' in (String c t, r)
  end.

(** [s.split(None, 1)]: leading whitespace is dropped, the first token
    is cut, and what remains after the separating whitespace is kept as
    it is (trailing whitespace included) when it is not empty. *)
Definition split_None_1 (s : string) : list string :=
  match lstrip s with
  | EmptyString => []
  | String c s' =>
      let '(tok, rest) := span_token (String c s') in
      match lstrip rest with
      | EmptyString => [tok]
      | String d r => [tok; String d r]
      end
  end.

Definition newline : ascii := Ascii.ascii_of_nat 10.

(** [re.match(r"^\s*(?:#|$)", s)] is a match: after some whitespace
    comes a [#], the end of the string, or a newline that ends it. *)
Fixpoint re_match_blank_or_comment (s : string) : bool :=
  match s with
  | EmptyString => true
  | String c s' =>
      Ascii.eqb c "#"
      || (Ascii.eqb c newline && String.eqb s' EmptyString)
      || (isspace c && re_match_blank_or_comment s')
  end.

End PyStr.

(** ** Phone normalizer (source lines 45-48 and 104-116)

    [phonenumbers] is the optional third-party module: [None] when its
    import failed, else the two calls the script makes into it. *)

Record PhoneLib : Type := {
  PhoneNumber : Type;
  (** [phonenumbers.parse(phonestr, region)] *)
  parse : string -> option string -> result PhoneNumber;
  (** [phonenumbers.format_number(n, PhoneNumberFormat.E164)] *)
  format_number_E164 : PhoneNumber -> string
}.

Definition _normalize_phone_num (phonenumbers : option PhoneLib)
    (phonestr : string) (region : option string) : result string :=
  match phonenumbers with
  | Some lib =>
      match parse lib phonestr region with
      | Ok phonenum => Ok (format_number_E164 lib phonenum)
      | Raise e => Raise e
      end
  | None =>
      let onlynum := PyStr.re_sub_non_digits phonestr in
      let onlynum :=
        if (PyStr.len onlynum =? 10) && bool_decide (region = Some "US")
        then "1" ++ onlynum else onlynum in
      Ok ("+" ++ onlynum)
  end.

(** ** Time (the [time] module as the script uses it) *)

Module PyTime.

(** The fields of [time.struct_time] that the format below reads. *)
Record struct_time : Type := {
  tm_year : Z;
  tm_mon : Z;
  tm_mday : Z;
  tm_hour : Z;
  tm_min : Z;
  tm_sec : Z
}.

(** The names the current locale gives to [%b] and [%p]. *)
Record Locale : Type := {
  abmon : Z -> string;
  am_pm : bool -> string
}.

(** A two-digit field, padded with a zero. *)
Definition pad2 (n : Z) : string :=
  if n <? 10 then "0" ++ str n else str n.

Definition hour12 (h : Z) : Z :=
  if h mod 12 =? 0 then 12 else h mod 12.

(** One conversion of [strftime]. *)
Definition directive (loc : Locale) (d : ascii) (t : struct_time) : string :=
  if Ascii.eqb d "b" then abmon loc (tm_mon t)
  else if Ascii.eqb d "d" then pad2 (tm_mday t)
  else if Ascii.eqb d "Y" then str (tm_year t)
  else if Ascii.eqb d "I" then pad2 (hour12 (tm_hour t))
  else if Ascii.eqb d "M" then pad2 (tm_min t)
  else if Ascii.eqb d "S" then pad2 (tm_sec t)
  else if Ascii.eqb d "p" then am_pm loc (tm_hour t <? 12)
  else String "%" (String d EmptyString).

(** [time.strftime(format, t)]. *)
Fixpoint strftime (loc : Locale) (format : string) (t : struct_time) : string :=
  match format with
  | EmptyString => EmptyString
  | String c rest =>
      if Ascii.eqb c "%" then
        match rest with
        | String d rest' => directive loc d t ++ strftime loc rest' t
        | EmptyString => String c EmptyString
        end
      else String c (strftime loc rest t)
  end.

(** The C locale. *)
Definition C_locale : Locale := {|
  abmon := fun m =>
    match m with
    | 1 => "Jan" | 2 => "Feb" | 3 => "Mar" | 4 => "Apr"
    | 5 => "May" | 6 => "Jun" | 7 => "Jul" | 8 => "Aug"
    | 9 => "Sep" | 10 => "Oct" | 11 => "Nov" | 12 => "Dec"
    | _ => "?"
    end;
  am_pm := fun am => if am then "AM" else "PM"
|}.

(** The civil date of a day count from 1970-01-01 (proleptic Gregorian). *)
Definition civil_from_days (days : Z) : Z * Z * Z :=
  let z := days + 719468 in
  let era := z / 146097 in
  let doe := z - era * 146097 in
  let yoe := (doe - doe / 1460 + doe / 36524 - doe / 146096) / 365 in
  let doy := doe - (365 * yoe + yoe / 4 - yoe / 100) in
  let mp := (5 * doy + 2) / 153 in
  let d := doy - (153 * mp + 2) / 5 + 1 in
  let m := if mp <? 10 then mp + 3 else mp - 9 in
  let y := yoe + era * 400 in
  (if m <=? 2 then y + 1 else y, m, d).

(** [time.localtime] of a host whose time zone is UTC: the seconds are
    floored, and a year that does not fit the C [int] of [tm_year] is
    refused. *)
Definition utc_localtime (secs : number) : result struct_time :=
  match (match secs with PyInt z => Ok z | PyFloat f => floor f end) with
  | Raise e => Raise e
  | Ok s =>
      let '(y, m, d) := civil_from_days (s / 86400) in
      let r := s mod 86400 in
      if (- 2 ^ 31 <=? y - 1900) && (y - 1900 <? 2 ^ 31) then
        Ok {| tm_year := y; tm_mon := m; tm_mday := d;
              tm_hour := r / 3600; tm_min := (r mod 3600) / 60;
              tm_sec := r mod 60 |}
      else Raise OverflowError
  end.

End PyTime.

Import PyTime.

(** ** The host: interpreter, optional module, clock and locale *)

Record Platform : Type := {
  py : version;
  phonenumbers : option PhoneLib;
  (** [time.localtime] *)
  localtime : number -> result struct_time;
  locale : Locale
}.

(** ** Logging and control flow

    [_logger] receives records in call order; a computation threads the
    records written so far and either returns or raises. *)

Inductive level : Type := DEBUG | INFO | WARNING | ERROR.

Record LogRecord : Type := {
  levelname : level;
  msg : string;
  args : list string
}.

Definition M (A : Type) : Type :=
  list LogRecord -> result A * list LogRecord.

Definition ret {A : Type} (a : A) : M A := fun l => (Ok a, l).

Definition bind {A B : Type} (c : M A) (k : A -> M B) : M B :=
  fun l =>
    match c l with
    | (Ok a, l') => k a l'
    | (Raise e, l') => (Raise e, l')
    end.

Definition lift {A : Type} (r : result A) : M A := fun l => (r, l).

Definition log (lv : level) (fmt : string) (a : list string) : M unit :=
  fun l => (Ok tt, (l ++ [{| levelname := lv; msg := fmt; args := a |}])%list).

#[export] Instance M_ret : MRet M := @ret.
#[export] Instance M_bind : MBind M := fun A B k c => bind c k.

(** ** Record assembler (source lines 118-160) *)

(** A row of the [Message] table. *)
Record Row : Type := {
  CreatedOn : Z;
  Sender : string;
  ToAddress : string;
  SourceType : Z;
  Body : string;
  IsRead : Z;
  IsLocked : Z
}.

(** A value of the attribute dictionary: a string or [None]. *)
Inductive pyval : Type :=
  | PyNone
  | PyString (s : string).

(** What [num2name] can hold when [main] passes it on: [None], the
    dictionary that [_read_contacts] built, or the integer it returns for
    a malformed line. *)
Inductive num2name_t : Type :=
  | N2N_None
  | N2N_dict (d : gmap string string)
  | N2N_int (n : Z).

Section Assembler.

Variable env : Platform.

Definition normalize (phonestr : string) (region : option string)
  : result string :=
  _normalize_phone_num (phonenumbers env) phonestr region.

(** [sender in senders], guarded by [senders is not None]. *)
Definition in_senders (senders : option (gset string)) (sender : string)
  : bool :=
  match senders with
  | Some s => bool_decide (sender ∈ s)
  | None => false
  end.

Definition _message_row_to_attrs (row : Row) (num2name : num2name_t)
    (region : option string) (senders : option (gset string))
  : M (gmap string pyval) :=
  sms_date ← lift (_created_on_to_timestamp_ms (py env) (CreatedOn row));
  secs ← lift (div (py env) sms_date 1000);
  sms_time ← lift (localtime env secs);
  sender ← lift (normalize (Sender row) region);
  let source_type := SourceType row in
  '(sms_type, address) ←
    (if (source_type =? 3) || in_senders senders sender then
       address ← lift (normalize (ToAddress row) region);
       mret ("2", address)
     else
       (if negb (source_type =? 2)
        then log WARNING "Unrecognized SourceType %s" [str source_type]
        else mret tt);;
       mret ("1", sender));
  contact_name ←
    match num2name with
    | N2N_None => mret PyNone
    | N2N_dict d =>
        match d !! address with
        | Some name => mret (PyString name)
        | None =>
            log WARNING "%s did not match any contacts" [address];;
            mret (PyString "(Unknown)")
        end
    | N2N_int _ => lift (Raise AttributeError)
    end;
  date ← lift (int sms_date);
  mret (list_to_map (M := gmap string pyval) [
    ("protocol", PyString "0");
    ("address", PyString address);
    ("date", PyString (str date));
    ("type", PyString sms_type);
    ("subject", PyString "null");
    ("body", PyString (Body row));
    ("toa", PyString "null");
    ("sc_toa", PyString "null");
    ("service_center", PyString "null");
    ("read", PyString (str (IsRead row)));
    ("status", PyString "-1");
    ("locked", PyString (str (IsLocked row)));
    ("date_sent", PyString (str date));
    ("readable_date",
      PyString (PyStr.replace " 0" " "
               (strftime (locale env) "%b %d, %Y %I:%M:%S %p" sms_time)));
    ("contact_name", contact_name)
  ]).

End Assembler.

(** ** Contacts reader (source lines 162-177) *)

Section Contacts.

Variable env : Platform.

(** The loop over [enumerate(contacts_file)]: [linenum] is the index of
    the head of [lines], [num2name] the dictionary built so far. *)
Fixpoint read_contacts_from (lines : list string) (linenum : Z)
    (num2name : gmap string string) (region : option string)
  : M num2name_t :=
  match lines with
  | [] => mret (N2N_dict num2name)
  | line :: rest =>
      if PyStr.re_match_blank_or_comment line then
        read_contacts_from rest (linenum + 1) num2name region
      else
        match PyStr.split_None_1 line with
        | part0 :: part1 :: _ =>
            number ← lift (normalize env part0 region);
            let name := part1 in
            read_contacts_from rest (linenum + 1)
              (<[number := name]> num2name) region
        | _ =>
            log ERROR "Missing name or number on line %d: %s"
                [str linenum; line];;
            mret (N2N_int 1)
        end
  end.

Definition _read_contacts (contacts_file : list string)
    (region : option string) : M num2name_t :=
  read_contacts_from contacts_file 0 ∅ region.

End Contacts.

(** ** Entry point (source lines 233-271)

    The command line is parsed and the region is resolved before this
    point; the rows are those of [SELECT * FROM Message], in the order the
    store yields them. *)

Record Args : Type := {
  contacts : option (list string);
  region : option string;
  sender : option (list string)
}.

(** The [smses] element: its attributes and its [sms] children. *)
Record Document : Type := {
  count : string;
  backup_set : string;
  backup_date : string;
  children : list (gmap string pyval)
}.

(** [ET.ElementTree.write] (line 270) serializes every attribute of every
    child, and raises TypeError at a value that is [None]. *)
Definition serializable (attrs : gmap string pyval) : bool :=
  List.forallb
    (fun kv => match snd kv with PyNone => false | PyString _ => true end)
    (map_to_list attrs).

Definition write (doc : Document) : result unit :=
  if List.forallb serializable (children doc) then Ok tt
  else Raise TypeError.

Section Main.

Variable env : Platform.

(** [[f(x) for x in xs]], left to right, stopping at the first raise. *)
Fixpoint for_each {A B : Type} (f : A -> M B) (xs : list A) : M (list B) :=
  match xs with
  | [] => mret []
  | x :: xs' =>
      y ← f x;
      ys ← for_each f xs';
      mret (y :: ys)
  end.

(** [uuid4] and [now_ms] stand for [str(uuid.uuid4())] and
    [int(time.time() * 1000)]; the result is the exit status and the
    document that was written. *)
Definition main (args : Args) (rows : list Row) (uuid4 : string)
    (now_ms : Z) : M (Z * Document) :=
  senders ←
    match sender args with
    | Some l =>
        ss ← for_each (fun s => lift (normalize env s (region args))) l;
        mret (Some (list_to_set (C := gset string) ss))
    | None => mret None
    end;
  num2name ←
    match contacts args with
    | None => mret N2N_None
    | Some contacts_file => _read_contacts env contacts_file None
    end;
  messages ←
    for_each (fun row =>
                _message_row_to_attrs env row num2name (region args) senders)
             rows;
  let smses := {| count := str (Z.of_nat (length messages));
                  backup_set := uuid4;
                  backup_date := str now_ms;
                  children := messages |} in
  lift (write smses);;
  mret (0, smses).

End Main.

(** ** Vocabulary of the statements *)

(** The date of a row as the assembler computes it: the integer printed in
    [date] and the broken-down local time that is formatted. *)
Definition timestamp_of (env : Platform) (row : Row) : result (Z * struct_time) :=
  match _created_on_to_timestamp_ms (py env) (CreatedOn row) with
  | Raise e => Raise e
  | Ok sms_date =>
      match div (py env) sms_date 1000 with
      | Raise e => Raise e
      | Ok secs =>
          match localtime env secs with
          | Raise e => Raise e
          | Ok sms_time =>
              match int sms_date with
              | Raise e => Raise e
              | Ok date => Ok (date, sms_time)
              end
          end
      end
  end.

(** The attribute dictionary, given what the steps before it produced. *)
Definition attrs_of (loc : Locale) (row : Row) (date : Z)
    (sms_time : struct_time) (sms_type address : string)
    (contact_name : pyval) : gmap string pyval :=
  list_to_map [
    ("protocol", PyString "0");
    ("address", PyString address);
    ("date", PyString (str date));
    ("type", PyString sms_type);
    ("subject", PyString "null");
    ("body", PyString (Body row));
    ("toa", PyString "null");
    ("sc_toa", PyString "null");
    ("service_center", PyString "null");
    ("read", PyString (str (IsRead row)));
    ("status", PyString "-1");
    ("locked", PyString (str (IsLocked row)));
    ("date_sent", PyString (str date));
    ("readable_date",
      PyString (PyStr.replace " 0" " "
               (strftime loc "%b %d, %Y %I:%M:%S %p" sms_time)));
    ("contact_name", contact_name)
  ].

Definition unrecognized_warning (source_type : Z) : LogRecord :=
  {| levelname := WARNING; msg := "Unrecognized SourceType %s";
     args := [str source_type] |}.

Definition missing_name_error (linenum : Z) (line : string) : LogRecord :=
  {| levelname := ERROR; msg := "Missing name or number on line %d: %s";
     args := [str linenum; line] |}.

Definition no_match_warning (address : string) : LogRecord :=
  {| levelname := WARNING; msg := "%s did not match any contacts";
     args := [address] |}.

Definition is_warning (fmt : string) (r : LogRecord) : bool :=
  match levelname r with
  | WARNING => String.eqb (msg r) fmt
  | _ => false
  end.

(** How many warnings with the given message a log holds. *)
Fixpoint count_warnings (fmt : string) (l : list LogRecord) : nat :=
  match l with
  | [] => O
  | r :: l' =>
      if is_warning fmt r then S (count_warnings fmt l')
      else count_warnings fmt l'
  end.

Definition count_unrecognized : list LogRecord -> nat :=
  count_warnings "Unrecognized SourceType %s".

(** The contact lookup of the assembler on its own. *)
Definition resolve (num2name : num2name_t) (address : string) : M pyval :=
  fun l =>
    match num2name with
    | N2N_None => (Ok PyNone, l)
    | N2N_dict d =>
        match d !! address with
        | Some name => (Ok (PyString name), l)
        | None => (Ok (PyString "(Unknown)"),
                   (l ++ [no_match_warning address])%list)
        end
    | N2N_int _ => (Raise AttributeError, l)
    end.

(** The rule of the classifier, as a proposition. *)
Definition is_sent (source_type : Z) (senders : option (gset string))
    (sender : string) : Prop :=
  source_type = 3 \/ exists S : gset string, senders = Some S /\ sender ∈ S.

(** A canonical number: a [+] followed by digits only. *)
Definition canonical (n : string) : bool :=
  match n with
  | String c d => Ascii.eqb c "+" && PyStr.forallb PyStr.is_digit d
  | EmptyString => false
  end.

(** A string without any space. *)
Definition plain (s : string) : bool :=
  PyStr.forallb (fun c => negb (Ascii.eqb c " ")) s.

(** The locale's month and half-day names do not interfere with the
    replacement of [" 0"]: neither holds a space, and the half-day name
    does not start with a zero. *)
Definition locale_plain (loc : Locale) (t : struct_time) : bool :=
  plain (abmon loc (tm_mon t))
  && plain (am_pm loc (tm_hour t <? 12))
  && negb (PyStr.startswith "0" (am_pm loc (tm_hour t <? 12))).



(** The display string with the day and the hour unpadded. *)
Definition readable_unpadded (loc : Locale) (t : struct_time) : string :=
  abmon loc (tm_mon t) ++ " " ++ str (tm_mday t) ++ ", " ++ str (tm_year t)
  ++ " " ++ str (hour12 (tm_hour t)) ++ ":" ++ pad2 (tm_min t) ++ ":"
  ++ pad2 (tm_sec t) ++ " " ++ am_pm loc (tm_hour t <? 12).

(** [stripped s d]: [d] is [s] with every character outside [[0-9]]
    removed, the others kept in order. *)
Inductive stripped : string -> string -> Prop :=
  | stripped_nil : stripped "" ""
  | stripped_keep c s d :
      PyStr.is_digit c = true -> stripped s d ->
      stripped (String c s) (String c d)
  | stripped_drop c s d :
      PyStr.is_digit c = false -> stripped s d -> stripped (String c s) d.

(** ** Sample hosts and inputs *)

(** Python 3 without [phonenumbers], time zone UTC, C locale. *)
Definition utc_py3 : Platform :=
  {| py := Py3; phonenumbers := None;
     localtime := utc_localtime; locale := C_locale |}.

(** The same host under Python 2. *)
Definition utc_py2 : Platform :=
  {| py := Py2; phonenumbers := None;
     localtime := utc_localtime; locale := C_locale |}.

(** 2016-01-05 03:04:05 UTC, received, from a ten-digit number. *)
Definition row_received : Row :=
  {| CreatedOn := 636191822450000000; Sender := "5551234567";
     ToAddress := "(555) 765-4321"; SourceType := 2; Body := "hi";
     IsRead := 1; IsLocked := 0 |}.

(** The same row with a [SourceType] the script does not know. *)
Definition row_unknown : Row :=
  {| CreatedOn := 636191822450000000; Sender := "5551234567";
     ToAddress := "(555) 765-4321"; SourceType := 9; Body := "hi";
     IsRead := 1; IsLocked := 0 |}.


(** The tick count of 1970-01-01 00:00:00. *)
Definition row_epoch : Row :=
  {| CreatedOn := 621672192000000000; Sender := "5551234567";
     ToAddress := "(555) 765-4321"; SourceType := 2; Body := "hi";
     IsRead := 1; IsLocked := 0 |}.

(** The local time of [row_received] and [row_unknown] on a UTC host. *)
Definition jan_5_2016 : struct_time :=
  {| tm_year := 2016; tm_mon := 1; tm_mday := 5;
     tm_hour := 3; tm_min := 4; tm_sec := 5 |}.

Definition own_number : gset string := {[ "+15551234567" ]}.

Definition newline_str : string := String PyStr.newline EmptyString.

(** A contacts file with one well-formed line. *)
Definition contacts_bob : list string := ["5551234567 Bob" ++ newline_str].

(** A contacts file whose only line has a number and no name. *)
Definition contacts_malformed : list string := ["5551234567" ++ newline_str].

Definition args_bob : Args :=
  {| contacts := Some contacts_bob; region := Some "US"; sender := None |}.

Definition args_malformed : Args :=
  {| contacts := Some contacts_malformed; region := Some "US";
     sender := None |}.

(** ** Region guesser (source lines 78-102) and region resolution
    (source lines 228-231) *)

Module PyRe.

(** A character of [[A-Z]] under [re.IGNORECASE]. *)
Definition is_letter (c : ascii) : bool :=
  let n := Z.of_N (N_of_ascii c) in
  ((65 <=? n) && (n <=? 90)) || ((97 <=? n) && (n <=? 122)).

Definition is_upper (c : ascii) : bool :=
  let n := Z.of_N (N_of_ascii c) in (65 <=? n) && (n <=? 90).

Definition is_lower (c : ascii) : bool :=
  let n := Z.of_N (N_of_ascii c) in (97 <=? n) && (n <=? 122).

(** [[A-Z]+] followed by the rest of a pattern: at least one letter is
    taken, as many as possible first, one fewer each time the rest [k] of
    the pattern fails.  [k] gets the letters taken and what follows. *)
Fixpoint letters_then {A : Type} (s : string)
    (k : string -> string -> option A) : option A :=
  match s with
  | EmptyString => None
  | String c s' =>
      if is_letter c then
        match letters_then s' (fun m r => k (String c m) r) with
        | Some a => Some a
        | None => k (String c EmptyString) s'
        end
      else None
  end.

(** [(?:_|$)]: an underscore, the end of the string, or a newline that
    ends it. *)
Definition underscore_or_end (s : string) : bool :=
  match s with
  | EmptyString => true
  | String c s' =>
      Ascii.eqb c "_" || (Ascii.eqb c PyStr.newline && String.eqb s' EmptyString)
  end.

(** Group 1 of [re.match("-([A-Z]+)(?:_|$)", s, re.IGNORECASE)]. *)
Definition match_nt (s : string) : option string :=
  match s with
  | String c s' =>
      if Ascii.eqb c "-" then
        letters_then s' (fun g r => if underscore_or_end r then Some g else None)
      else None
  | EmptyString => None
  end.

(** Group 1 of [re.match("^[A-Z]+_([A-Z]+)", s, re.IGNORECASE)]. *)
Definition match_posix (s : string) : option string :=
  letters_then s
    (fun _ r =>
       match r with
       | String c r' =>
           if Ascii.eqb c "_" then letters_then r' (fun g _ => Some g)
           else None
       | EmptyString => None
       end).

Definition upper_char (c : ascii) : ascii :=
  let n := N_of_ascii c in
  if ((97 <=? n) && (n <=? 122))%N then ascii_of_N (n - 32) else c.

(** [s.upper()] on a string of ASCII characters, where it changes the
    letters a to z only. *)
Fixpoint upper (s : string) : string :=
  match s with
  | EmptyString => EmptyString
  | String c s' => String (upper_char c) (upper s')
  end.

End PyRe.

(** [os_name] is [os.name]; [locale_name] is what [locale.getlocale()[0]]
    returned (line 81), after [locale.setlocale] accepted the locale of the
    environment (line 80): the function is the rest of the body, from line
    82 on.  A host that refuses the locale makes line 80 raise
    locale.Error, and the region is never guessed. *)
Definition _guess_region (os_name : string) (locale_name : option string)
  : option string :=
  match locale_name with
  | None => None
  | Some locale_name =>
      let match_ :=
        if String.eqb os_name "nt" then PyRe.match_nt locale_name
        else PyRe.match_posix locale_name in
      match match_ with
      | None => None
      | Some group1 => Some (PyRe.upper group1)
      end
  end.

Definition _guess_region_or_warn (os_name : string)
    (locale_name : option string) : M (option string) :=
  let region := _guess_region os_name locale_name in
  match region with
  | None =>
      log WARNING
        "Unable to guess phone number region.  Numbers must start with '+' then country code."
        [];;
      mret region
  | Some r =>
      log DEBUG "Assuming phone region is %s" [r];;
      mret region
  end.

(** The region that [main] passes on: guessed when [--region] is absent,
    else the option's value in upper case.  [locale_name] is as for
    [_guess_region]. *)
Definition main_region (os_name : string) (locale_name : option string)
    (region : option string) : M (option string) :=
  match region with
  | None => _guess_region_or_warn os_name locale_name
  | Some r => mret (Some (PyRe.upper r))
  end.

(** [main] from the parsed command line: the region is resolved, then the
    rows are converted. *)
Definition main_from_options (env : Platform) (os_name : string)
    (locale_name : option string) (args : Args) (rows : list Row)
    (uuid4 : string) (now_ms : Z) : M (Z * Document) :=
  r ← main_region os_name locale_name (region args);
  main env {| contacts := contacts args; region := r;
              sender := sender args |} rows uuid4 now_ms.

(** The fifteen keys of an [sms] element. *)
Definition sms_keys : gset string :=
  list_to_set ["protocol"; "address"; "date"; "type"; "subject"; "body";
               "toa"; "sc_toa"; "service_center"; "read"; "status";
               "locked"; "date_sent"; "readable_date"; "contact_name"].

(** A line of the contacts file that is read as an entry: not blank, not
    a comment, and split in a number and a name. *)
Definition contact_line (line num name : string) : Prop :=
  PyStr.re_match_blank_or_comment line = false
  /\ exists more, PyStr.split_None_1 line = num :: name :: more.

(** A line that is neither skipped nor an entry. *)
Definition malformed_line (line : string) : Prop :=
  PyStr.re_match_blank_or_comment line = false
  /\ (PyStr.split_None_1 line = []
      \/ exists tok, PyStr.split_None_1 line = [tok]).

(** A sample of the optional module, for full mode: it accepts a "+"
    followed by digits and formats a number as it was given. *)
Definition plus_digits_only : PhoneLib := {|
  PhoneNumber := string;
  parse := fun s _ => if canonical s then Ok s else Raise NumberParseException;
  format_number_E164 := fun n => n
|}.

(** The sample host of [utc_py3] with that module. *)
Definition utc_py3_full : Platform :=
  {| py := Py3; phonenumbers := Some plus_digits_only;
     localtime := utc_localtime; locale := C_locale |}.

(** A row whose sender is not a number. *)
Definition row_bad_sender : Row :=
  {| CreatedOn := 636191822450000000; Sender := "unknown";
     ToAddress := "+15557654321"; SourceType := 2; Body := "hi";
     IsRead := 1; IsLocked := 0 |}.

(** A string without whitespace. *)
Definition no_space (s : string) : bool :=
  PyStr.forallb (fun c => negb (PyStr.isspace c)) s.

(** A string of whitespace only. *)
Definition all_space (s : string) : bool := PyStr.forallb PyStr.isspace s.

(** Every character of [s] is an ASCII character. *)
Definition ascii_only (s : string) : bool :=
  PyStr.forallb (fun c => Z.of_N (N_of_ascii c) <? 128) s.

(** * Properties *)

Ltac unfold_M :=
  unfold mbind, M_bind, bind, mret, M_ret, ret, lift, log in *.

(** ** The assembler, step by step *)

Lemma timestamp_of_inv env row date t :
  timestamp_of env row = Ok (date, t) ->
  exists sms_date secs,
    _created_on_to_timestamp_ms (py env) (CreatedOn row) = Ok sms_date
    /\ div (py env) sms_date 1000 = Ok secs
    /\ localtime env secs = Ok t
    /\ int sms_date = Ok date.
Proof.
  unfold timestamp_of.
  destruct (_created_on_to_timestamp_ms _ _) as [sms_date|] eqn:H1;
    [|discriminate].
  destruct (div _ sms_date 1000) as [secs|] eqn:H2; [|discriminate].
  destruct (localtime env secs) as [t'|] eqn:H3; [|discriminate].
  destruct (int sms_date) as [d|] eqn:H4; [|discriminate].
  intros [= -> ->]. exists sms_date, secs. auto.
Qed.

(** Once the date and the sender are known, the assembler is the
    classifier followed by the contact lookup. *)
Lemma assembler_steps env row num2name region senders l date t sender :
  timestamp_of env row = Ok (date, t) ->
  normalize env (Sender row) region = Ok sender ->
  _message_row_to_attrs env row num2name region senders l =
    if (SourceType row =? 3) || in_senders senders sender then
      match normalize env (ToAddress row) region with
      | Raise e => (Raise e, l)
      | Ok address =>
          match resolve num2name address l with
          | (Ok c, l') =>
              (Ok (attrs_of (locale env) row date t "2" address c), l')
          | (Raise e, l') => (Raise e, l')
          end
      end
    else
      match resolve num2name sender
              (if SourceType row =? 2 then l
               else (l ++ [unrecognized_warning (SourceType row)])%list) with
      | (Ok c, l') => (Ok (attrs_of (locale env) row date t "1" sender c), l')
      | (Raise e, l') => (Raise e, l')
      end.
Proof.
  intros Ht Hs.
  destruct (timestamp_of_inv _ _ _ _ Ht)
    as (sms_date & secs & H1 & H2 & H3 & H4).
  unfold _message_row_to_attrs. unfold_M.
  rewrite H1, H2, H3, Hs.
  destruct ((SourceType row =? 3) || in_senders senders sender).
  - destruct (normalize env (ToAddress row) region) as [address|e];
      [|reflexivity].
    unfold resolve.
    destruct num2name as [|d|n]; [| |reflexivity].
    + rewrite H4. reflexivity.
    + destruct (d !! address); rewrite H4; reflexivity.
  - unfold resolve.
    destruct (SourceType row =? 2); cbn [negb];
      (destruct num2name as [|d|n]; [| |reflexivity];
       [ rewrite H4; reflexivity
       | destruct (d !! sender); rewrite H4; reflexivity ]).
Qed.

(** A returned record is built from the row's date and local time. *)
Lemma assembler_returns env row num2name region senders l attrs l' :
  _message_row_to_attrs env row num2name region senders l = (Ok attrs, l') ->
  exists date t sms_type address c,
    timestamp_of env row = Ok (date, t)
    /\ attrs = attrs_of (locale env) row date t sms_type address c.
Proof.
  unfold _message_row_to_attrs, timestamp_of. unfold_M.
  destruct (_created_on_to_timestamp_ms _ _) as [sms_date|]; [|discriminate].
  destruct (div _ sms_date 1000) as [secs|]; [|discriminate].
  destruct (localtime env secs) as [t|]; [|discriminate].
  destruct (normalize env (Sender row) region) as [sender|]; [|discriminate].
  destruct ((SourceType row =? 3) || in_senders senders sender).
  - destruct (normalize env (ToAddress row) region) as [address|];
      [|discriminate].
    destruct num2name as [|d|n]; [| |discriminate].
    + destruct (int sms_date) as [date|]; [|discriminate].
      intros [= <- <-]. do 5 eexists. split; reflexivity.
    + destruct (d !! address);
        (destruct (int sms_date) as [date|]; [|discriminate]);
        intros [= <- <-]; do 5 eexists; split; reflexivity.
  - destruct (negb (SourceType row =? 2));
      (destruct num2name as [|d|n]; [| |discriminate];
       [ destruct (int sms_date) as [date|]; [|discriminate];
         intros [= <- <-]; do 5 eexists; split; reflexivity
       | destruct (d !! sender);
         (destruct (int sms_date) as [date|]; [|discriminate]);
         intros [= <- <-]; do 5 eexists; split; reflexivity ]).
Qed.

Lemma attrs_of_type loc row date t ty a c :
  attrs_of loc row date t ty a c !! "type" = Some (PyString ty).
Proof. reflexivity. Qed.

Lemma attrs_of_address loc row date t ty a c :
  attrs_of loc row date t ty a c !! "address" = Some (PyString a).
Proof. reflexivity. Qed.

Lemma attrs_of_contact_name loc row date t ty a c :
  attrs_of loc row date t ty a c !! "contact_name" = Some c.
Proof. reflexivity. Qed.


Lemma attrs_of_readable_date loc row date t ty a c :
  attrs_of loc row date t ty a c !! "readable_date" =
  Some (PyString (PyStr.replace " 0" " "
                    (strftime loc "%b %d, %Y %I:%M:%S %p" t))).
Proof. reflexivity. Qed.

(** ** Logs *)

Lemma count_unrecognized_snoc l source_type :
  count_unrecognized (l ++ [unrecognized_warning source_type])
  = S (count_unrecognized l).
Proof.
  unfold count_unrecognized. induction l as [|r l IH]; [reflexivity|].
  cbn [count_warnings app]. rewrite IH. destruct (is_warning _ r); reflexivity.
Qed.

Lemma count_unrecognized_no_match l address :
  count_unrecognized (l ++ [no_match_warning address]) = count_unrecognized l.
Proof.
  unfold count_unrecognized. induction l as [|r l IH]; [reflexivity|].
  cbn [count_warnings app]. rewrite IH. reflexivity.
Qed.

(** The lookup returns unless [num2name] is the integer of a failed load,
    and it never logs an unrecognized [SourceType]. *)
Lemma resolve_returns num2name address l :
  (forall n, num2name <> N2N_int n) ->
  exists c l', resolve num2name address l = (Ok c, l')
    /\ count_unrecognized l' = count_unrecognized l.
Proof.
  intros Hn. unfold resolve. destruct num2name as [|d|n].
  - eauto.
  - destruct (d !! address); [eauto|].
    do 2 eexists. split; [reflexivity|]. apply count_unrecognized_no_match.
  - destruct (Hn n). reflexivity.
Qed.

(** ** Classifier *)

Lemma is_sent_decide source_type senders sender :
  is_sent source_type senders sender <->
  (source_type =? 3) || in_senders senders sender = true.
Proof.
  unfold is_sent, in_senders. rewrite orb_true_iff, Z.eqb_eq. split.
  - intros [H | (S & -> & H)]; [left; exact H|right].
    apply bool_decide_eq_true. exact H.
  - intros [H | H]; [left; exact H|right].
    destruct senders as [S|]; [|discriminate].
    exists S. split; [reflexivity|]. apply bool_decide_eq_true in H. exact H.
Qed.

Lemma is_sent_reflect source_type senders sender :
  reflect (is_sent source_type senders sender)
          ((source_type =? 3) || in_senders senders sender).
Proof. apply iff_reflect, is_sent_decide. Qed.

(** C7: whenever the row's date and sender are available and [num2name]
    is [None] or a dictionary, the record has type "2" exactly when
    [SourceType == 3] or the normalized sender is in the Sender Set, and
    type "1" otherwise; the address is the normalized [ToAddress] of a
    sent row and the normalized sender of a received one.  A sent row
    returns as soon as its [ToAddress] normalizes, a received row always. *)
Theorem classifier_sent_iff env row num2name region senders l date t sender :
  timestamp_of env row = Ok (date, t) ->
  normalize env (Sender row) region = Ok sender ->
  (forall n, num2name <> N2N_int n) ->
  (is_sent (SourceType row) senders sender ->
   forall address, normalize env (ToAddress row) region = Ok address ->
   exists attrs l',
     _message_row_to_attrs env row num2name region senders l = (Ok attrs, l')
     /\ attrs !! "type" = Some (PyString "2")
     /\ attrs !! "address" = Some (PyString address))
  /\ (~ is_sent (SourceType row) senders sender ->
      exists attrs l',
        _message_row_to_attrs env row num2name region senders l
          = (Ok attrs, l')
        /\ attrs !! "type" = Some (PyString "1")
        /\ attrs !! "address" = Some (PyString sender))
  /\ (forall attrs l',
        _message_row_to_attrs env row num2name region senders l
          = (Ok attrs, l') ->
        (attrs !! "type" = Some (PyString "2")
         <-> is_sent (SourceType row) senders sender)).
Proof.
  intros Ht Hs Hn.
  rewrite (assembler_steps _ _ num2name _ senders l _ _ _ Ht Hs).
  destruct (is_sent_reflect (SourceType row) senders sender) as [Hsent|Hrecv].
  - split; [|split].
    + intros _ address Ha. rewrite Ha.
      destruct (resolve_returns num2name address l Hn) as (c & l' & -> & _).
      eauto using attrs_of_type, attrs_of_address.
    + intros H. contradiction.
    + intros attrs l'.
      destruct (normalize env (ToAddress row) region) as [address|];
        [|discriminate].
      destruct (resolve num2name address l) as [[c|] l2]; [|discriminate].
      intros [= <- <-]. split; [intros _; exact Hsent|].
      intros _. apply attrs_of_type.
  - split; [|split].
    + intros H. contradiction.
    + intros _.
      destruct (resolve_returns num2name sender
                  (if SourceType row =? 2 then l
                   else (l ++ [unrecognized_warning (SourceType row)])%list)
                  Hn)
        as (c & l' & -> & _).
      eauto using attrs_of_type, attrs_of_address.
    + intros attrs l'.
      destruct (resolve num2name sender _) as [[c|] l2]; [|discriminate].
      intros [= <- <-]. rewrite attrs_of_type.
      split; [discriminate|contradiction].
Qed.

(** A row with [SourceType = 2] whose sender is the owner's number. *)
Lemma classifier_override_witness :
  exists attrs l',
    _message_row_to_attrs utc_py3 row_received N2N_None (Some "US")
      (Some own_number) [] = (Ok attrs, l')
    /\ attrs !! "type" = Some (PyString "2")
    /\ attrs !! "address" = Some (PyString "+15557654321").
Proof.
  refine (proj1 (classifier_sent_iff utc_py3 row_received N2N_None (Some "US")
                   (Some own_number) [] 1451963045000 jan_5_2016
                   "+15551234567" _ _ _) _ "+15557654321" _).
  - vm_compute. reflexivity.
  - vm_compute. reflexivity.
  - intros n. discriminate.
  - right. exists own_number. split; [reflexivity|].
    unfold own_number. set_solver.
  - vm_compute. reflexivity.
Defined.

(** C8: a row classified as received whose [SourceType] is not 2 (and not
    3, being received) is returned with type "1", and its assembly adds
    exactly one "Unrecognized SourceType" warning to the log. *)
Theorem unrecognized_source_type_warns_once
    env row num2name region senders l date t sender :
  timestamp_of env row = Ok (date, t) ->
  normalize env (Sender row) region = Ok sender ->
  (forall n, num2name <> N2N_int n) ->
  ~ is_sent (SourceType row) senders sender ->
  SourceType row <> 2 ->
  exists attrs l',
    _message_row_to_attrs env row num2name region senders l = (Ok attrs, l')
    /\ attrs !! "type" = Some (PyString "1")
    /\ count_unrecognized l' = S (count_unrecognized l).
Proof.
  intros Ht Hs Hn Hrecv H2.
  rewrite (assembler_steps _ _ num2name _ senders l _ _ _ Ht Hs).
  destruct (is_sent_reflect (SourceType row) senders sender) as [Hsent|_];
    [contradiction|].
  destruct (Z.eqb_spec (SourceType row) 2) as [E|_]; [contradiction|].
  destruct (resolve_returns num2name sender
              (l ++ [unrecognized_warning (SourceType row)])%list Hn)
    as (c & l' & -> & Hc).
  exists (attrs_of (locale env) row date t "1" sender c), l'.
  split; [reflexivity|]. split; [apply attrs_of_type|].
  rewrite Hc. apply count_unrecognized_snoc.
Qed.

(** A row with [SourceType = 9]. *)
Lemma unrecognized_source_type_witness :
  exists attrs l',
    _message_row_to_attrs utc_py3 row_unknown N2N_None (Some "US") None []
      = (Ok attrs, l')
    /\ attrs !! "type" = Some (PyString "1")
    /\ count_unrecognized l' = 1%nat.
Proof.
  refine (unrecognized_source_type_warns_once utc_py3 row_unknown N2N_None
            (Some "US") None [] 1451963045000 jan_5_2016
            "+15551234567" _ _ _ _ _).
  - vm_compute. reflexivity.
  - vm_compute. reflexivity.
  - intros n. discriminate.
  - intros [H | (S & H & _)]; discriminate.
  - discriminate.
Defined.

Lemma override_keeps_log env row num2name region senders l sender :
  normalize env (Sender row) region = Ok sender ->
  in_senders senders sender = true ->
  count_unrecognized
    (snd (_message_row_to_attrs env row num2name region senders l))
  = count_unrecognized l.
Proof.
  intros Hs Hin. unfold _message_row_to_attrs. unfold_M.
  destruct (_created_on_to_timestamp_ms _ _) as [sms_date|]; [|reflexivity].
  destruct (div _ sms_date 1000) as [secs|]; [|reflexivity].
  destruct (localtime env secs) as [t|]; [|reflexivity].
  rewrite Hs, Hin, orb_true_r.
  destruct (normalize env (ToAddress row) region) as [address|];
    [|reflexivity].
  destruct num2name as [|d|n]; [| |reflexivity].
  - destruct (int sms_date); reflexivity.
  - destruct (d !! address); destruct (int sms_date); cbn [snd].
    all: try reflexivity.
    all: apply count_unrecognized_no_match.
Qed.

(** C10: when the normalized sender is in the Sender Set and [SourceType]
    is neither 2 nor 3, assembling the row adds no "Unrecognized
    SourceType" warning, whatever else happens; and when the date and
    [ToAddress] are available the row is returned with type "2". *)
Theorem sender_override_suppresses_warning
    env row num2name region senders l sender :
  normalize env (Sender row) region = Ok sender ->
  SourceType row <> 2 ->
  SourceType row <> 3 ->
  (exists S : gset string, senders = Some S /\ sender ∈ S) ->
  count_unrecognized
    (snd (_message_row_to_attrs env row num2name region senders l))
  = count_unrecognized l
  /\ (forall date t address,
        timestamp_of env row = Ok (date, t) ->
        normalize env (ToAddress row) region = Ok address ->
        (forall n, num2name <> N2N_int n) ->
        exists attrs l',
          _message_row_to_attrs env row num2name region senders l
            = (Ok attrs, l')
          /\ attrs !! "type" = Some (PyString "2")
          /\ count_unrecognized l' = count_unrecognized l).
Proof.
  intros Hs _ _ (S & -> & Hin).
  assert (Hb : in_senders (Some S) sender = true)
    by (apply bool_decide_eq_true; exact Hin).
  split; [exact (override_keeps_log _ _ _ _ _ _ _ Hs Hb)|].
  intros date t address Ht Ha Hn.
  rewrite (assembler_steps _ _ num2name _ (Some S) l _ _ _ Ht Hs).
  rewrite Hb, orb_true_r, Ha.
  destruct (resolve_returns num2name address l Hn) as (c & l' & -> & Hc).
  eauto using attrs_of_type.
Qed.

(** The row with [SourceType = 9], sent from the owner's number. *)
Lemma sender_override_witness :
  exists attrs l',
    _message_row_to_attrs utc_py3 row_unknown N2N_None (Some "US")
      (Some own_number) [] = (Ok attrs, l')
    /\ attrs !! "type" = Some (PyString "2")
    /\ count_unrecognized l' = O.
Proof.
  refine (proj2 (sender_override_suppresses_warning utc_py3 row_unknown
                   N2N_None (Some "US") (Some own_number) []
                   "+15551234567" _ _ _ _)
            1451963045000 jan_5_2016 "+15557654321" _ _ _).
  - vm_compute. reflexivity.
  - discriminate.
  - discriminate.
  - exists own_number. split; [reflexivity|]. unfold own_number. set_solver.
  - vm_compute. reflexivity.
  - vm_compute. reflexivity.
  - intros n. discriminate.
Defined.

(** ** Contact resolver *)

(** C1 (the case without a table): the record that the assembler returns
    when [num2name] is [None] holds the key [contact_name], with the value
    [None]; the key is not left out.  First on a sample row, then for
    every row that is returned. *)
Theorem no_table_contact_name_is_None :
  (exists attrs,
     _message_row_to_attrs utc_py3 row_received N2N_None (Some "US") None []
       = (Ok attrs, [])
     /\ attrs !! "contact_name" = Some PyNone)
  /\ (forall env row region senders l,
        match _message_row_to_attrs env row N2N_None region senders l with
        | (Ok attrs, _) => attrs !! "contact_name" = Some PyNone
        | (Raise _, _) => True
        end).
Proof.
  split.
  - eexists. split; [vm_compute; reflexivity|]. vm_compute. reflexivity.
  - intros env row region senders l.
    unfold _message_row_to_attrs. unfold_M.
    destruct (_created_on_to_timestamp_ms _ _) as [sms_date|]; [|exact I].
    destruct (div _ sms_date 1000) as [secs|]; [|exact I].
    destruct (localtime env secs) as [t|]; [|exact I].
    destruct (normalize env (Sender row) region) as [sender|]; [|exact I].
    destruct ((SourceType row =? 3) || in_senders senders sender).
    + destruct (normalize env (ToAddress row) region) as [address|];
        [|exact I].
      destruct (int sms_date); [reflexivity|exact I].
    + destruct (negb (SourceType row =? 2));
        (destruct (int sms_date); [reflexivity|exact I]).
Qed.

Lemma count_no_match_snoc l address :
  count_warnings "%s did not match any contacts"
    (l ++ [no_match_warning address])
  = S (count_warnings "%s did not match any contacts" l).
Proof.
  induction l as [|r l IH]; [reflexivity|].
  cbn [count_warnings app]. rewrite IH. destruct (is_warning _ r); reflexivity.
Qed.

Lemma count_no_match_unrecognized l source_type :
  count_warnings "%s did not match any contacts"
    (l ++ [unrecognized_warning source_type])
  = count_warnings "%s did not match any contacts" l.
Proof.
  induction l as [|r l IH]; [reflexivity|].
  cbn [count_warnings app]. rewrite IH. reflexivity.
Qed.

(** With a table, the record's [contact_name] is the name stored under the
    record's address, or "(Unknown)" together with one more "did not match
    any contacts" warning when the address is not a key. *)
Theorem contact_name_with_table env row d region senders l attrs l' :
  _message_row_to_attrs env row (N2N_dict d) region senders l
    = (Ok attrs, l') ->
  exists address,
    attrs !! "address" = Some (PyString address)
    /\ match d !! address with
       | Some name =>
           attrs !! "contact_name" = Some (PyString name)
           /\ count_warnings "%s did not match any contacts" l'
              = count_warnings "%s did not match any contacts" l
       | None =>
           attrs !! "contact_name" = Some (PyString "(Unknown)")
           /\ count_warnings "%s did not match any contacts" l'
              = S (count_warnings "%s did not match any contacts" l)
       end.
Proof.
  unfold _message_row_to_attrs. unfold_M.
  destruct (_created_on_to_timestamp_ms _ _) as [sms_date|]; [|discriminate].
  destruct (div _ sms_date 1000) as [secs|]; [|discriminate].
  destruct (localtime env secs) as [t|]; [|discriminate].
  destruct (normalize env (Sender row) region) as [sender|]; [|discriminate].
  destruct ((SourceType row =? 3) || in_senders senders sender).
  - destruct (normalize env (ToAddress row) region) as [address|];
      [|discriminate].
    destruct (d !! address) as [name|] eqn:E;
      (destruct (int sms_date) as [date|]; [|discriminate]);
      intros [= <- <-]; exists address; (split; [reflexivity|]); rewrite E;
      (split; [reflexivity|]).
    + reflexivity.
    + apply count_no_match_snoc.
  - destruct (negb (SourceType row =? 2));
      (destruct (d !! sender) as [name|] eqn:E;
       (destruct (int sms_date) as [date|]; [|discriminate]);
       intros [= <- <-]; exists sender; (split; [reflexivity|]); rewrite E;
       (split; [reflexivity|])).
    all: first
      [ reflexivity
      | exact (count_no_match_unrecognized l (SourceType row))
      | exact (count_no_match_snoc l sender)
      | etransitivity;
        [ exact (count_no_match_snoc _ sender)
        | f_equal; exact (count_no_match_unrecognized l (SourceType row)) ] ].
Qed.

(** A received row whose sender is a key of the table. *)
Lemma contact_name_with_table_witness :
  exists address,
    attrs_of C_locale row_received 1451963045000 jan_5_2016 "1"
      "+15551234567" (PyString "Bob") !! "address"
    = Some (PyString address)
    /\ match ({[ "+15551234567" := "Bob" ]} : gmap string string) !! address with
       | Some name =>
           attrs_of C_locale row_received 1451963045000 jan_5_2016 "1"
             "+15551234567" (PyString "Bob") !! "contact_name"
           = Some (PyString name)
           /\ count_warnings "%s did not match any contacts" [] = O
       | None =>
           attrs_of C_locale row_received 1451963045000 jan_5_2016 "1"
             "+15551234567" (PyString "Bob") !! "contact_name"
           = Some (PyString "(Unknown)")
           /\ count_warnings "%s did not match any contacts" [] = 1%nat
       end.
Proof.
  refine (contact_name_with_table utc_py3 row_received
            {[ "+15551234567" := "Bob" ]} (Some "US") None [] _ [] _).
  vm_compute. reflexivity.
Defined.

(** ** Phone normalizer, fallback mode *)

Lemma re_sub_stripped s : stripped s (PyStr.re_sub_non_digits s).
Proof.
  unfold PyStr.re_sub_non_digits.
  induction s as [|c s IH]; cbn [PyStr.filter]; [constructor|].
  destruct (PyStr.is_digit c) eqn:E; constructor; assumption.
Qed.

Lemma filter_digits_all s :
  PyStr.forallb PyStr.is_digit (PyStr.filter PyStr.is_digit s) = true.
Proof.
  induction s as [|c s IH]; [reflexivity|]. cbn [PyStr.filter].
  destruct (PyStr.is_digit c) eqn:E; [|exact IH].
  cbn [PyStr.forallb]. rewrite E, IH. reflexivity.
Qed.

Lemma filter_digits_id d :
  PyStr.forallb PyStr.is_digit d = true -> PyStr.filter PyStr.is_digit d = d.
Proof.
  induction d as [|c d IH]; [reflexivity|]. cbn [PyStr.forallb PyStr.filter].
  intros [Hc Hd]%andb_prop. rewrite Hc, (IH Hd). reflexivity.
Qed.

Lemma fallback_eq s region :
  _normalize_phone_num None s region =
  Ok (String "+"
        (if (PyStr.len (PyStr.filter PyStr.is_digit s) =? 10)
            && bool_decide (region = Some "US")
         then String "1" (PyStr.filter PyStr.is_digit s)
         else PyStr.filter PyStr.is_digit s)).
Proof. reflexivity. Qed.

Lemma fallback_on_canonical d region :
  PyStr.forallb PyStr.is_digit d = true ->
  _normalize_phone_num None (String "+" d) region =
  Ok (String "+" (if (PyStr.len d =? 10) && bool_decide (region = Some "US")
                  then String "1" d else d)).
Proof.
  intros Hd. rewrite fallback_eq.
  change (PyStr.filter PyStr.is_digit (String "+" d))
    with (PyStr.filter PyStr.is_digit d).
  rewrite (filter_digits_id d Hd). reflexivity.
Qed.

Lemma stripped_unique s d : stripped s d -> d = PyStr.re_sub_non_digits s.
Proof.
  unfold PyStr.re_sub_non_digits.
  induction 1 as [|c s d Hc _ IH|c s d Hc _ IH]; cbn [PyStr.filter];
    [reflexivity|rewrite Hc, IH; reflexivity|rewrite Hc; exact IH].
Qed.

(** C9: without [phonenumbers], the normalizer of any string and region
    returns "+" followed by the string's digits (every other character
    removed, which is what [re.sub] leaves), with a "1" between them
    exactly when there are ten digits and the region is "US". *)
Theorem fallback_normalizer_strips_and_prefixes
    (s : string) (region : option string) :
  let digits := PyStr.re_sub_non_digits s in
  stripped s digits
  /\ (String.length digits = 10%nat /\ region = Some "US" ->
      _normalize_phone_num None s region = Ok ("+1" ++ digits))
  /\ (~ (String.length digits = 10%nat /\ region = Some "US") ->
      _normalize_phone_num None s region = Ok ("+" ++ digits)).
Proof.
  intros digits. split; [apply re_sub_stripped|].
  cbn [_normalize_phone_num]. unfold PyStr.len. fold digits.
  destruct (Z.eqb_spec (Z.of_nat (String.length digits)) 10) as [E|E];
    destruct (bool_decide_reflect (region = Some "US")) as [R|R]; cbn [andb].
  - split; [reflexivity|]. intros H. destruct H. split; [lia|exact R].
  - split; [intros [_ H]; contradiction|reflexivity].
  - split; [intros [H _]; lia|reflexivity].
  - split; [intros [H _]; lia|reflexivity].
Qed.

(** "(555) 123-4567" under region "US". *)
Lemma fallback_normalizer_witness :
  _normalize_phone_num None "(555) 123-4567" (Some "US") = Ok "+15551234567".
Proof.
  refine (proj1 (proj2 (fallback_normalizer_strips_and_prefixes
                          "(555) 123-4567" (Some "US"))) _).
  split; reflexivity.
Defined.

(** C3, refuted as stated: the canonical number "+5551234567" is not a
    fixed point of the fallback normalizer under region "US". *)
Lemma canonical_ten_digits_not_fixed :
  canonical "+5551234567" = true
  /\ _normalize_phone_num None "+5551234567" (Some "US") = Ok "+15551234567"
  /\ "+15551234567" <> "+5551234567".
Proof. split; [reflexivity|]. split; [reflexivity|discriminate]. Qed.

(** C3, amended: in fallback mode the normalizer always returns a
    canonical number that it maps to itself, so normalizing twice is
    normalizing once; and a canonical number is returned unchanged unless
    it has ten digits and the region is "US", in which case a "1" is put
    in front of its digits. *)
Theorem fallback_normalizer_idempotent :
  (forall (s : string) (region : option string),
     exists n,
       _normalize_phone_num None s region = Ok n
       /\ canonical n = true
       /\ _normalize_phone_num None n region = Ok n)
  /\ (forall (n : string) (region : option string),
        canonical n = true ->
        (~ (String.length n = 11%nat /\ region = Some "US") ->
         _normalize_phone_num None n region = Ok n)
        /\ (String.length n = 11%nat /\ region = Some "US" ->
            exists d, n = String "+" d
              /\ _normalize_phone_num None n region
                 = Ok (String "+" (String "1" d)))).
Proof.
  split.
  - intros s region.
    pose proof (filter_digits_all s) as Hd.
    rewrite fallback_eq.
    set (d := PyStr.filter PyStr.is_digit s) in *.
    destruct ((PyStr.len d =? 10) && bool_decide (region = Some "US")) eqn:C.
    + exists (String "+" (String "1" d)).
      split; [reflexivity|]. split; [cbn; exact Hd|].
      rewrite fallback_on_canonical by (cbn; exact Hd).
      apply andb_prop in C as [C _]. apply Z.eqb_eq in C.
      replace (PyStr.len (String "1" d) =? 10) with false; [reflexivity|].
      symmetry. apply Z.eqb_neq. unfold PyStr.len in *.
      cbn [String.length]. lia.
    + exists (String "+" d).
      split; [reflexivity|]. split; [cbn; exact Hd|].
      rewrite fallback_on_canonical by exact Hd. rewrite C. reflexivity.
  - intros n region Hc. destruct n as [|c d]; [discriminate|].
    cbn [canonical] in Hc. apply andb_prop in Hc as [Hp Hd].
    apply Ascii.eqb_eq in Hp. subst c.
    rewrite (fallback_on_canonical d region Hd). unfold PyStr.len.
    cbn [String.length].
    destruct (Z.eqb_spec (Z.of_nat (String.length d)) 10) as [E|E];
      destruct (bool_decide_reflect (region = Some "US")) as [R|R]; cbn [andb].
    + split; [intros H; destruct H; split; [lia|exact R]|].
      intros _. exists d. split; reflexivity.
    + split; [reflexivity|]. intros [_ H]. contradiction.
    + split; [reflexivity|]. intros [H _]. lia.
    + split; [reflexivity|]. intros [H _]. lia.
Qed.

(** An eleven-digit canonical number under region "US". *)
Lemma fallback_normalizer_idempotent_witness :
  _normalize_phone_num None "+15551234567" (Some "US") = Ok "+15551234567".
Proof.
  refine (proj1 (proj2 fallback_normalizer_idempotent
                   "+15551234567" (Some "US") _) _).
  - reflexivity.
  - intros [H _]. discriminate.
Defined.

(** ** Contacts reader and entry point *)

(** With the integer of a failed load in [num2name], the assembler never
    returns a record. *)
Lemma assembler_raises_on_int env row n region senders l :
  exists e l',
    _message_row_to_attrs env row (N2N_int n) region senders l = (Raise e, l').
Proof.
  unfold _message_row_to_attrs. unfold_M.
  destruct (_created_on_to_timestamp_ms _ _) as [sms_date|]; [|eauto].
  destruct (div _ sms_date 1000) as [secs|]; [|eauto].
  destruct (localtime env secs) as [t|]; [|eauto].
  destruct (normalize env (Sender row) region) as [sender|]; [|eauto].
  destruct ((SourceType row =? 3) || in_senders senders sender).
  - destruct (normalize env (ToAddress row) region) as [address|]; eauto.
  - destruct (negb (SourceType row =? 2)); eauto.
Qed.

(** C2: a contacts file whose first line is a number without a name does
    not stop the run.  On the sample host, with no rows, [main] returns
    status 0 and an empty document after logging the error; with one row,
    the run ends with an AttributeError raised inside the assembly of that
    row, after the row's own warning was logged.  On every host: with no
    rows the run completes, and with rows it ends in an exception raised
    while the first row is assembled. *)
Theorem malformed_contacts_do_not_abort :
  main utc_py3 args_malformed [] "uuid" 0 []
  = (Ok (0, {| count := "0"; backup_set := "uuid"; backup_date := "0";
              children := [] |}),
     [missing_name_error 0 ("5551234567" ++ newline_str)])
  /\ main utc_py3 args_malformed [row_unknown] "uuid" 0 []
     = (Raise AttributeError,
        [missing_name_error 0 ("5551234567" ++ newline_str);
         unrecognized_warning 9])
  /\ (forall env rest reg uuid4 now_ms l,
        main env {| contacts := Some (contacts_malformed ++ rest)%list;
                    region := reg; sender := None |} [] uuid4 now_ms l
        = (Ok (0, {| count := "0"; backup_set := uuid4;
                    backup_date := str now_ms; children := [] |}),
           (l ++ [missing_name_error 0 ("5551234567" ++ newline_str)])%list))
  /\ (forall env rest reg uuid4 now_ms l row rows,
        exists e l',
          main env {| contacts := Some (contacts_malformed ++ rest)%list;
                      region := reg; sender := None |}
            (row :: rows) uuid4 now_ms l
          = (Raise e, l')).
Proof.
  split; [vm_compute; reflexivity|].
  split; [vm_compute; reflexivity|].
  split; [reflexivity|].
  intros env rest reg uuid4 now_ms l row rows.
  unfold main. unfold_M. cbn [sender contacts region].
  change (_read_contacts env (contacts_malformed ++ rest)%list None l)
    with (Ok (N2N_int 1),
          (l ++ [missing_name_error 0 ("5551234567" ++ newline_str)])%list).
  cbn [for_each]. unfold_M.
  destruct (assembler_raises_on_int env row 1 reg None
              (l ++ [missing_name_error 0 ("5551234567" ++ newline_str)])%list)
    as (e & l' & ->).
  eauto.
Qed.

(** C6: [main] reads the contacts without the region.  The line
    "5551234567 Bob" is stored under "+5551234567" while a message from
    "5551234567" gets the address "+15551234567" under region "US", so
    its [contact_name] is "(Unknown)"; read with the region, the same line
    is stored under "+15551234567".  In fallback mode this holds for every
    raw number of ten digits: its key and its address differ. *)
Theorem contacts_key_ignores_region :
  main utc_py3 args_bob [row_received] "uuid" 0 []
  = (Ok (0, {| count := "1"; backup_set := "uuid"; backup_date := "0";
              children := [attrs_of C_locale row_received 1451963045000
                             jan_5_2016 "1" "+15551234567"
                             (PyString "(Unknown)")] |}),
     [no_match_warning "+15551234567"])
  /\ _read_contacts utc_py3 contacts_bob None []
     = (Ok (N2N_dict {[ "+5551234567" := "Bob" ++ newline_str ]}), [])
  /\ _read_contacts utc_py3 contacts_bob (Some "US") []
     = (Ok (N2N_dict {[ "+15551234567" := "Bob" ++ newline_str ]}), [])
  /\ (forall env s,
        phonenumbers env = None ->
        String.length (PyStr.re_sub_non_digits s) = 10%nat ->
        exists key address,
          normalize env s None = Ok key
          /\ normalize env s (Some "US") = Ok address
          /\ key <> address).
Proof.
  split; [vm_compute; reflexivity|].
  split; [vm_compute; reflexivity|].
  split; [vm_compute; reflexivity|].
  intros env s Hlib Hlen. unfold normalize. rewrite Hlib, !fallback_eq.
  unfold PyStr.len. fold (PyStr.re_sub_non_digits s). rewrite Hlen.
  cbn [Z.of_nat Pos.of_succ_nat Pos.succ Z.eqb Pos.eqb andb].
  do 2 eexists. split; [reflexivity|]. split; [reflexivity|].
  intros [= H]. apply (f_equal String.length) in H.
  cbn [String.length] in H. lia.
Qed.

(** ** Display string *)

Lemma strftime_format loc t :
  strftime loc "%b %d, %Y %I:%M:%S %p" t =
  abmon loc (tm_mon t) ++ " " ++ pad2 (tm_mday t) ++ ", " ++ str (tm_year t)
  ++ " " ++ pad2 (hour12 (tm_hour t)) ++ ":" ++ pad2 (tm_min t) ++ ":"
  ++ pad2 (tm_sec t) ++ " " ++ am_pm loc (tm_hour t <? 12) ++ "".
Proof. reflexivity. Qed.

Lemma plain_uint d : plain (NilEmpty.string_of_uint d) = true.
Proof. induction d; cbn; auto. Qed.

Lemma plain_str z : plain (str z) = true.
Proof.
  unfold str. destruct z as [|p|p]; cbn; [reflexivity| |];
    unfold NilZero.string_of_uint;
    (destruct (Pos.to_uint p) eqn:E; try reflexivity;
     rewrite <- E; apply plain_uint).
Qed.

(** The decimal digits of a positive number start with a non-zero digit. *)
Lemma to_uint_head p :
  match Pos.to_uint p with
  | Decimal.Nil | Decimal.D0 _ => False
  | _ => True
  end.
Proof.
  pose proof (Unsigned.to_uint_nonzero p) as Hz.
  pose proof (Unsigned.to_of (Pos.to_uint p)) as Hn.
  rewrite Unsigned.of_to in Hn. cbn [N.to_uint] in Hn.
  unfold Decimal.unorm in Hn.
  destruct (Decimal.nzhead (Pos.to_uint p)) eqn:E;
    [ congruence | exfalso; exact (nzhead_nonzero _ _ E) | .. ];
    rewrite Hn; exact I.
Qed.

Lemma str_pos_head z :
  0 < z -> exists c r, str z = String c r /\ c <> "0"%char.
Proof.
  destruct z as [|p|p]; try lia. intros _.
  unfold str. cbn. unfold NilZero.string_of_uint.
  pose proof (to_uint_head p) as H.
  destruct (Pos.to_uint p); try contradiction; cbn;
    do 2 eexists; (split; [reflexivity|discriminate]).
Qed.

(** [replace_from O " 0" " "] is [replace " 0" " "]; the lemmas below move
    it through the pieces of the formatted string. *)

Lemma replace_plain_app s r :
  plain s = true ->
  PyStr.replace_from O " 0" " " (s ++ r)
  = s ++ PyStr.replace_from O " 0" " " r.
Proof.
  induction s as [|c s IH]; [reflexivity|].
  cbn [plain PyStr.forallb]. intros [Hc Hs]%andb_prop.
  change (String c s ++ r) with (String c (s ++ r)).
  cbn [PyStr.replace_from PyStr.startswith].
  apply negb_true_iff in Hc. rewrite Ascii.eqb_sym, Hc. cbn [andb].
  change (String c s ++ PyStr.replace_from O " 0" " " r)
    with (String c (s ++ PyStr.replace_from O " 0" " " r)).
  f_equal. apply IH. exact Hs.
Qed.

Lemma replace_space_zero r :
  PyStr.replace_from O " 0" " " (String " " (String "0" r))
  = String " " (PyStr.replace_from O " 0" " " r).
Proof. reflexivity. Qed.

Lemma replace_space_other c r :
  c <> "0"%char ->
  PyStr.replace_from O " 0" " " (String " " (String c r))
  = String " " (PyStr.replace_from O " 0" " " (String c r)).
Proof.
  intros Hc. cbn [PyStr.replace_from PyStr.startswith].
  apply Ascii.eqb_neq in Hc. rewrite (Ascii.eqb_sym "0" c), Hc. reflexivity.
Qed.

Lemma replace_space_str n r :
  0 < n ->
  PyStr.replace_from O " 0" " " (" " ++ str n ++ r)
  = " " ++ str n ++ PyStr.replace_from O " 0" " " r.
Proof.
  intros Hn. destruct (str_pos_head n Hn) as (c & s & E & Hc).
  pose proof (plain_str n) as Hp. rewrite E in *.
  change (" " ++ String c s ++ r) with (String " " (String c (s ++ r))).
  rewrite (replace_space_other c (s ++ r) Hc).
  change (String c (s ++ r)) with (String c s ++ r).
  rewrite (replace_plain_app _ r Hp). reflexivity.
Qed.

(** A padded field that follows a space loses its padding. *)
Lemma replace_space_pad2 n r :
  PyStr.replace_from O " 0" " " (" " ++ pad2 n ++ r)
  = " " ++ str n ++ PyStr.replace_from O " 0" " " r.
Proof.
  unfold pad2. destruct (Z.ltb_spec n 10) as [Hn|Hn].
  - change (" " ++ ("0" ++ str n) ++ r)
      with (String " " (String "0" (str n ++ r))).
    rewrite replace_space_zero, (replace_plain_app _ r (plain_str n)).
    reflexivity.
  - apply replace_space_str. lia.
Qed.

Lemma plain_pad2 n : plain (pad2 n) = true.
Proof.
  unfold pad2. destruct (n <? 10); [|apply plain_str].
  change ("0" ++ str n) with (String "0" (str n)).
  cbn [plain PyStr.forallb]. apply plain_str.
Qed.

Lemma append_empty_r s : s ++ "" = s.
Proof.
  induction s as [|c s IH]; [reflexivity|].
  change (String c s ++ "") with (String c (s ++ "")). rewrite IH. reflexivity.
Qed.

Lemma replace_space_name s :
  plain s = true -> PyStr.startswith "0" s = false ->
  PyStr.replace_from O " 0" " " (" " ++ s ++ "") = " " ++ s.
Proof.
  intros Hp H0. rewrite append_empty_r. destruct s as [|c s]; [reflexivity|].
  cbn [PyStr.startswith] in H0. rewrite andb_true_r in H0.
  change (" " ++ String c s) with (String " " (String c s)).
  rewrite replace_space_other
    by (intros ->; rewrite Ascii.eqb_refl in H0; discriminate).
  rewrite <- (append_empty_r (String c s)) at 1.
  rewrite (replace_plain_app _ "" Hp), append_empty_r. reflexivity.
Qed.

Lemma replace_strftime loc t :
  1 <= tm_year t ->
  locale_plain loc t = true ->
  PyStr.replace " 0" " " (strftime loc "%b %d, %Y %I:%M:%S %p" t)
  = readable_unpadded loc t.
Proof.
  intros Hy Hl. unfold locale_plain in Hl.
  apply andb_prop in Hl as [[Hb Hp]%andb_prop H0].
  apply negb_true_iff in H0.
  rewrite strftime_format. unfold PyStr.replace, readable_unpadded.
  rewrite (replace_plain_app _ _ Hb). f_equal.
  rewrite replace_space_pad2. f_equal. f_equal.
  change (", " ++ ?x) with ("," ++ " " ++ x).
  rewrite (replace_plain_app "," _ eq_refl).
  rewrite replace_space_str by lia.
  rewrite replace_space_pad2.
  rewrite (replace_plain_app ":" _ eq_refl).
  rewrite (replace_plain_app _ _ (plain_pad2 _)).
  rewrite (replace_plain_app ":" _ eq_refl).
  rewrite (replace_plain_app _ _ (plain_pad2 _)).
  rewrite (replace_space_name _ Hp H0). reflexivity.
Qed.

(** C5, refuted as stated: at 03:04:05 on January 5 the format gives
    "Jan 05, 2016 03:04:05 AM" and the record holds
    "Jan 5, 2016 3:04:05 AM": the zero of the hour is gone too. *)
Lemma readable_date_hour_zero_stripped :
  exists attrs,
    _message_row_to_attrs utc_py3 row_received N2N_None (Some "US") None []
      = (Ok attrs, [])
    /\ strftime C_locale "%b %d, %Y %I:%M:%S %p" jan_5_2016
       = "Jan 05, 2016 03:04:05 AM"
    /\ attrs !! "readable_date" = Some (PyString "Jan 5, 2016 3:04:05 AM")
    /\ "Jan 5, 2016 3:04:05 AM" <> "Jan 5, 2016 03:04:05 AM".
Proof.
  eexists. split; [vm_compute; reflexivity|].
  split; [vm_compute; reflexivity|].
  split; [vm_compute; reflexivity|discriminate].
Qed.

(** C5, amended: for a returned record whose local time has a year of at
    least 1000, in a locale whose month and AM/PM names hold no space (and
    no leading zero for AM/PM), [readable_date] is
    "Mon D, YYYY H:MM:SS AM/PM": the zero that pads the day and the zero
    that pads the hour are both removed, each being a zero that follows a
    space; the minutes and the seconds keep their two digits. *)
Theorem readable_date_strips_day_and_hour
    env row num2name region senders l attrs l' date t :
  _message_row_to_attrs env row num2name region senders l = (Ok attrs, l') ->
  timestamp_of env row = Ok (date, t) ->
  1000 <= tm_year t ->
  locale_plain (locale env) t = true ->
  attrs !! "readable_date"
  = Some (PyString (readable_unpadded (locale env) t)).
Proof.
  intros Hrun Ht Hy Hl.
  destruct (assembler_returns _ _ _ _ _ _ _ _ Hrun)
    as (date' & t' & ty & a & c & Ht' & ->).
  rewrite Ht in Ht'. injection Ht' as <- <-.
  rewrite attrs_of_readable_date, replace_strftime by (assumption || lia).
  reflexivity.
Qed.

(** Midnight of 1970-01-01: the hour is 12, the day loses its zero. *)
Lemma readable_date_witness :
  attrs_of C_locale row_epoch 0
    {| tm_year := 1970; tm_mon := 1; tm_mday := 1;
       tm_hour := 0; tm_min := 0; tm_sec := 0 |}
    "1" "+15551234567" PyNone !! "readable_date"
  = Some (PyString "Jan 1, 1970 12:00:00 AM").
Proof.
  refine (readable_date_strips_day_and_hour utc_py3 row_epoch N2N_None
            (Some "US") None [] _ [] 0
            {| tm_year := 1970; tm_mon := 1; tm_mday := 1;
               tm_hour := 0; tm_min := 0; tm_sec := 0 |} _ _ _ _).
  - vm_compute. reflexivity.
  - vm_compute. reflexivity.
  - cbn. lia.
  - vm_compute. reflexivity.
Defined.

(** ** Binary64: integers that need no rounding *)















(** ** Binary64: rounding stays between the neighbouring integers *)


















(** ** Timestamp converter *)




(** ** Further properties of the pipeline *)

Lemma for_each_Forall2 {A B : Type} (f : A -> M B) xs l ys l' :
  for_each f xs l = (Ok ys, l') ->
  Forall2 (fun x y => exists l1 l2, f x l1 = (Ok y, l2)) xs ys.
Proof.
  revert l ys l'. induction xs as [|x xs IH]; intros l ys l'; cbn [for_each].
  - unfold_M. intros [= <- <-]. constructor.
  - unfold_M. destruct (f x l) as [[y|] l1] eqn:E; [|discriminate].
    destruct (for_each f xs l1) as [[ys'|] l2] eqn:E'; [|discriminate].
    intros [= <- <-]. constructor; [eauto|]. exact (IH _ _ _ E').
Qed.

(** Blank lines and comment lines of the contacts file are skipped: a file
    made of them gives the empty table and logs nothing. *)
Theorem blank_and_comment_lines_ignored env lines region l :
  Forall (fun line => PyStr.re_match_blank_or_comment line = true) lines ->
  _read_contacts env lines region l = (Ok (N2N_dict ∅), l).
Proof.
  intros H. unfold _read_contacts. generalize 0.
  induction H as [|line lines Hline _ IH]; intros linenum;
    cbn [read_contacts_from]; [reflexivity|].
  rewrite Hline. apply IH.
Qed.

(** A comment, an empty line and a line of spaces. *)
Lemma blank_and_comment_lines_witness :
  _read_contacts utc_py3
    ["# my contacts" ++ newline_str; newline_str; "   " ++ newline_str]
    (Some "US") []
  = (Ok (N2N_dict ∅), []).
Proof.
  refine (blank_and_comment_lines_ignored utc_py3 _ (Some "US") [] _).
  repeat constructor.
Defined.

(** ** Region guesser *)

Lemma letters_then_greedy {A : Type} m r (k : string -> string -> option A) a :
  m <> "" ->
  PyStr.forallb PyRe.is_letter m = true ->
  match r with String c _ => PyRe.is_letter c = false | EmptyString => True end ->
  k m r = Some a ->
  PyRe.letters_then (m ++ r) k = Some a.
Proof.
  revert k. induction m as [|c m IH]; intros k Hne Hm Hr Hk; [congruence|].
  cbn [PyStr.forallb] in Hm. apply andb_prop in Hm as [Hc Hm].
  change (String c m ++ r) with (String c (m ++ r)).
  cbn [PyRe.letters_then]. rewrite Hc.
  destruct m as [|c' m'].
  - change ("" ++ r) with r.
    replace (PyRe.letters_then r (fun m r0 => k (String c m) r0)) with (@None A);
      [exact Hk|].
    destruct r as [|d r']; [reflexivity|]. cbn [PyRe.letters_then].
    rewrite Hr. reflexivity.
  - rewrite (IH (fun m r0 => k (String c m) r0)); [reflexivity|congruence| |exact Hr|exact Hk].
    exact Hm.
Qed.

Lemma letters_then_inv {A : Type} s (k : string -> string -> option A) a :
  PyRe.letters_then s k = Some a ->
  exists m r, s = m ++ r /\ m <> ""
    /\ PyStr.forallb PyRe.is_letter m = true /\ k m r = Some a.
Proof.
  revert k. induction s as [|c s IH]; intros k; cbn [PyRe.letters_then];
    [discriminate|].
  destruct (PyRe.is_letter c) eqn:Hc; [|discriminate].
  destruct (PyRe.letters_then s (fun m r => k (String c m) r)) as [a'|] eqn:E.
  - intros [= ->]. destruct (IH _ E) as (m & r & -> & Hne & Hm & Hk).
    exists (String c m), r. repeat split; [congruence| |exact Hk].
    cbn [PyStr.forallb]. rewrite Hc, Hm. reflexivity.
  - intros Hk. exists (String c ""), s. repeat split; [congruence| |exact Hk].
    cbn [PyStr.forallb]. rewrite Hc. reflexivity.
Qed.

Lemma upper_char_letter c :
  PyRe.is_letter c = true -> PyRe.is_upper (PyRe.upper_char c) = true.
Proof.
  destruct c as [[] [] [] [] [] [] [] []]; cbn; intros H;
    reflexivity || discriminate H.
Qed.

Lemma upper_letters m :
  PyStr.forallb PyRe.is_letter m = true ->
  PyStr.forallb PyRe.is_upper (PyRe.upper m) = true.
Proof.
  induction m as [|c m IH]; [reflexivity|]. cbn [PyStr.forallb PyRe.upper].
  intros [Hc Hm]%andb_prop. rewrite (upper_char_letter c Hc), (IH Hm).
  reflexivity.
Qed.

Lemma upper_nonempty m : m <> "" -> PyRe.upper m <> "".
Proof. destruct m; [congruence|discriminate]. Qed.

(** On a POSIX host a locale name "language_REGION", followed by anything
    that does not continue the region, gives the region in upper case. *)
Theorem guess_region_posix os_name lang reg rest :
  os_name <> "nt" ->
  lang <> "" -> PyStr.forallb PyRe.is_letter lang = true ->
  reg <> "" -> PyStr.forallb PyRe.is_letter reg = true ->
  match rest with
  | String c _ => PyRe.is_letter c = false
  | EmptyString => True
  end ->
  _guess_region os_name (Some (lang ++ "_" ++ reg ++ rest))
  = Some (PyRe.upper reg).
Proof.
  intros Hos Hl1 Hl2 Hr1 Hr2 Hrest. unfold _guess_region.
  apply String.eqb_neq in Hos. rewrite Hos. unfold PyRe.match_posix.
  rewrite (letters_then_greedy lang ("_" ++ reg ++ rest) _ reg);
    [reflexivity|exact Hl1|exact Hl2|reflexivity|].
  change ("_" ++ reg ++ rest) with (String "_" (reg ++ rest)).
  cbn [Ascii.eqb Bool.eqb].
  apply letters_then_greedy; [exact Hr1|exact Hr2|exact Hrest|reflexivity].
Qed.

Lemma guess_region_posix_witness :
  _guess_region "posix" (Some "en_us.UTF-8") = Some "US".
Proof.
  refine (guess_region_posix "posix" "en" "us" ".UTF-8" _ _ _ _ _ _);
    (discriminate || reflexivity).
Defined.

(** On Windows ([os.name == "nt"]) the pattern is matched at the start of
    the name, so a name that does not begin with a hyphen gives no region. *)
Theorem guess_region_nt_without_leading_hyphen locale_name :
  PyStr.startswith "-" locale_name = false ->
  _guess_region "nt" (Some locale_name) = None.
Proof.
  intros H. unfold _guess_region. cbn [String.eqb Ascii.eqb Bool.eqb].
  change (if String.eqb "nt" "nt" then PyRe.match_nt locale_name
          else PyRe.match_posix locale_name) with (PyRe.match_nt locale_name).
  destruct locale_name as [|c s]; [reflexivity|].
  cbn [PyStr.startswith] in H. rewrite andb_true_r, Ascii.eqb_sym in H.
  cbn [PyRe.match_nt]. rewrite H. reflexivity.
Qed.

Lemma guess_region_nt_witness : _guess_region "nt" (Some "en-US") = None.
Proof.
  refine (guess_region_nt_without_leading_hyphen "en-US" _). reflexivity.
Defined.

Lemma guess_region_letters os_name locale_name r :
  _guess_region os_name locale_name = Some r ->
  r <> "" /\ PyStr.forallb PyRe.is_upper r = true.
Proof.
  unfold _guess_region. destruct locale_name as [name|]; [|discriminate].
  destruct (String.eqb os_name "nt").
  - unfold PyRe.match_nt. destruct name as [|c s]; [discriminate|].
    destruct (Ascii.eqb c "-"); [|discriminate].
    destruct (PyRe.letters_then s _) as [g|] eqn:E; [|discriminate].
    intros [= <-]. destruct (letters_then_inv _ _ _ E) as (m & r' & _ & Hne & Hm & Hk).
    destruct (PyRe.underscore_or_end r'); [|discriminate]. injection Hk as <-.
    split; [apply upper_nonempty, Hne|apply upper_letters, Hm].
  - unfold PyRe.match_posix.
    destruct (PyRe.letters_then name _) as [g|] eqn:E; [|discriminate].
    intros [= <-]. destruct (letters_then_inv _ _ _ E) as (m & r' & _ & _ & _ & Hk).
    destruct r' as [|c r'']; [discriminate|].
    destruct (Ascii.eqb c "_"); [|discriminate].
    destruct (letters_then_inv _ _ _ Hk) as (m' & r3 & _ & Hne & Hm & Hk').
    injection Hk' as <-.
    split; [apply upper_nonempty, Hne|apply upper_letters, Hm].
Qed.

Lemma upper_no_lower s :
  PyStr.forallb (fun c => negb (PyRe.is_lower c)) (PyRe.upper s) = true.
Proof.
  induction s as [|c s IH]; [reflexivity|]. cbn [PyRe.upper PyStr.forallb].
  rewrite IH, andb_true_r.
  destruct c as [[] [] [] [] [] [] [] []]; reflexivity.
Qed.

Lemma forallb_impl (p q : ascii -> bool) s :
  (forall c, p c = true -> q c = true) ->
  PyStr.forallb p s = true -> PyStr.forallb q s = true.
Proof.
  intros Hpq. induction s as [|c s IH]; [reflexivity|]. cbn [PyStr.forallb].
  intros [Hc Hs]%andb_prop. rewrite (Hpq c Hc), (IH Hs). reflexivity.
Qed.

Lemma is_upper_not_lower c :
  PyRe.is_upper c = true -> negb (PyRe.is_lower c) = true.
Proof.
  destruct c as [[] [] [] [] [] [] [] []]; cbn; intros H;
    reflexivity || discriminate H.
Qed.

(** Region resolution, given the locale name that [getlocale] returned.
    A region given in ASCII characters is passed on in upper case, so
    without a lower-case letter, and nothing is logged.  Without
    [--region] the region passed on is the guess, a non-empty run of
    capitals when there is one, and exactly one record is logged: a
    warning exactly when no region was found, a debug record otherwise. *)
Theorem main_region_outcome os_name locale_name region l r l' :
  main_region os_name locale_name region l = (Ok r, l') ->
  (forall given,
     region = Some given -> ascii_only given = true ->
     r = Some (PyRe.upper given) /\ l' = l
     /\ PyStr.forallb (fun c => negb (PyRe.is_lower c)) (PyRe.upper given)
        = true)
  /\ (region = None ->
      r = _guess_region os_name locale_name
      /\ (forall s, r = Some s ->
           s <> "" /\ PyStr.forallb PyRe.is_upper s = true)
      /\ exists record,
           l' = (l ++ [record])%list
           /\ (levelname record = WARNING <-> r = None)
           /\ (levelname record = DEBUG <-> r <> None)).
Proof.
  unfold main_region. destruct region as [given|].
  - intros [= <- <-]. split; [|discriminate].
    intros g [= <-] _. split; [reflexivity|]. split; [reflexivity|].
    apply upper_no_lower.
  - unfold _guess_region_or_warn.
    destruct (_guess_region os_name locale_name) as [g|] eqn:E.
    + destruct (guess_region_letters _ _ _ E) as [Hne Hup].
      intros [= <- <-]. split; [discriminate|]. intros _.
      split; [reflexivity|]. split.
      * intros s [= <-]. split; assumption.
      * eexists. split; [reflexivity|]. cbn [levelname].
        split; split; discriminate || (intros _; reflexivity).
    + intros [= <- <-]. split; [discriminate|]. intros _.
      split; [reflexivity|]. split; [discriminate|].
      eexists. split; [reflexivity|]. cbn [levelname].
      split; split; try reflexivity; try discriminate; congruence.
Qed.

(** A region given in lower case, on any host. *)
Lemma main_region_outcome_witness :
  Some "US" = Some (PyRe.upper "us") /\ @nil LogRecord = []
  /\ PyStr.forallb (fun c => negb (PyRe.is_lower c)) (PyRe.upper "us") = true.
Proof.
  refine (proj1 (main_region_outcome "posix" None (Some "us") []
                   (Some "US") [] _) "us" _ _).
  - reflexivity.
  - reflexivity.
  - reflexivity.
Defined.

(** ** The assembled record *)

(** Everything a returned record was built from. *)
Lemma assembler_returns_all env row num2name region senders l attrs l' :
  _message_row_to_attrs env row num2name region senders l = (Ok attrs, l') ->
  exists date t sender address c l0,
    timestamp_of env row = Ok (date, t)
    /\ normalize env (Sender row) region = Ok sender
    /\ resolve num2name address l0 = (Ok c, l')
    /\ attrs = attrs_of (locale env) row date t
                 (if (SourceType row =? 3) || in_senders senders sender
                  then "2" else "1") address c
    /\ (if (SourceType row =? 3) || in_senders senders sender
        then normalize env (ToAddress row) region = Ok address
        else address = sender).
Proof.
  unfold _message_row_to_attrs, timestamp_of, resolve. unfold_M.
  destruct (_created_on_to_timestamp_ms _ _) as [sms_date|]; [|discriminate].
  destruct (div _ sms_date 1000) as [secs|]; [|discriminate].
  destruct (localtime env secs) as [t|]; [|discriminate].
  destruct (normalize env (Sender row) region) as [sender|]; [|discriminate].
  destruct ((SourceType row =? 3) || in_senders senders sender) eqn:Hb.
  - destruct (normalize env (ToAddress row) region) as [address|] eqn:Ha;
      [|discriminate].
    destruct num2name as [|d|n]; [| |discriminate].
    + destruct (int sms_date) as [date|]; [|discriminate].
      intros [= <- <-]. exists date, t, sender, address, PyNone, l.
      rewrite Hb. repeat split; reflexivity || exact Ha.
    + destruct (d !! address) as [name|] eqn:E;
        (destruct (int sms_date) as [date|]; [|discriminate]);
        intros [= <- <-].
      * exists date, t, sender, address, (PyString name), l.
        rewrite E, Hb. repeat split; reflexivity || exact Ha.
      * exists date, t, sender, address, (PyString "(Unknown)"), l.
        rewrite E, Hb. repeat split; reflexivity || exact Ha.
  - destruct (negb (SourceType row =? 2));
      (destruct num2name as [|d|n]; [| |discriminate];
       [ destruct (int sms_date) as [date|]; [|discriminate];
         intros [= <- <-];
         eexists date, t, sender, sender, PyNone, _;
         rewrite Hb; repeat split; reflexivity
       | destruct (d !! sender) as [name|] eqn:E;
         (destruct (int sms_date) as [date|]; [|discriminate]);
         intros [= <- <-];
         [ eexists date, t, sender, sender, (PyString name), _
         | eexists date, t, sender, sender, (PyString "(Unknown)"), _ ];
         rewrite E, Hb; repeat split; reflexivity ]).
Qed.

Lemma attrs_of_dom loc row date t ty a c :
  dom (attrs_of loc row date t ty a c) = sms_keys.
Proof. vm_compute. reflexivity. Qed.

(** Every returned record has exactly the fifteen keys of an [sms]
    element; eleven values are fixed by the row alone, [date_sent] repeats
    [date], every value other than [contact_name] is a string, and
    [contact_name] is [None] exactly when no table was given. *)
Theorem assembled_record_schema env row num2name region senders l attrs l' :
  _message_row_to_attrs env row num2name region senders l = (Ok attrs, l') ->
  dom attrs = sms_keys
  /\ attrs !! "protocol" = Some (PyString "0")
  /\ attrs !! "subject" = Some (PyString "null")
  /\ attrs !! "toa" = Some (PyString "null")
  /\ attrs !! "sc_toa" = Some (PyString "null")
  /\ attrs !! "service_center" = Some (PyString "null")
  /\ attrs !! "status" = Some (PyString "-1")
  /\ attrs !! "body" = Some (PyString (Body row))
  /\ attrs !! "read" = Some (PyString (str (IsRead row)))
  /\ attrs !! "locked" = Some (PyString (str (IsLocked row)))
  /\ attrs !! "date_sent" = attrs !! "date"
  /\ (forall k v, attrs !! k = Some v -> k <> "contact_name" ->
      exists s, v = PyString s)
  /\ (attrs !! "contact_name" = Some PyNone <-> num2name = N2N_None).
Proof.
  intros Hrun.
  destruct (assembler_returns_all _ _ _ _ _ _ _ _ Hrun)
    as (date & t & sender & address & c & l0 & _ & _ & Hres & -> & _).
  split; [apply attrs_of_dom|].
  do 10 (split; [reflexivity|]). split.
  - intros k v Hk Hne.
    assert (Hin : k ∈ sms_keys).
    { rewrite <- (attrs_of_dom (locale env) row date t
                    (if (SourceType row =? 3) || in_senders senders sender
                     then "2" else "1") address c).
      apply elem_of_dom. eauto. }
    unfold sms_keys in Hin. rewrite elem_of_list_to_set in Hin.
    repeat (apply elem_of_cons in Hin as [-> | Hin]);
      try (vm_compute in Hk; injection Hk as <-; eexists; reflexivity).
    + congruence.
    + apply elem_of_nil in Hin. contradiction.
  - rewrite attrs_of_contact_name. unfold resolve in Hres.
    destruct num2name as [|d|n]; [| |discriminate].
    + injection Hres as <- _. split; reflexivity.
    + destruct (d !! address); injection Hres as <- _;
        split; discriminate.
Qed.

Lemma assembled_record_schema_witness :
  dom (attrs_of C_locale row_received 1451963045000 jan_5_2016 "1"
         "+15551234567" PyNone) = sms_keys.
Proof.
  refine (proj1 (assembled_record_schema utc_py3 row_received N2N_None
                   (Some "US") None [] _ [] _)).
  vm_compute. reflexivity.
Defined.

(** ** Fallback mode never fails on a number *)

Lemma fallback_canonical env s region :
  phonenumbers env = None ->
  exists n, normalize env s region = Ok n /\ canonical n = true.
Proof.
  intros H. unfold normalize. rewrite H, fallback_eq.
  pose proof (filter_digits_all s) as Hd.
  destruct ((PyStr.len (PyStr.filter PyStr.is_digit s) =? 10)
            && bool_decide (region = Some "US"));
    eexists; (split; [reflexivity|]); cbn; exact Hd.
Qed.

(** Without [phonenumbers], a row whose date converts is always returned
    (with [num2name] [None] or a table), and its address is canonical: a
    "+" followed by digits only. *)
Theorem fallback_assembler_returns
    env row num2name region senders l date t :
  phonenumbers env = None ->
  timestamp_of env row = Ok (date, t) ->
  (forall n, num2name <> N2N_int n) ->
  exists attrs l' address,
    _message_row_to_attrs env row num2name region senders l = (Ok attrs, l')
    /\ attrs !! "address" = Some (PyString address)
    /\ canonical address = true.
Proof.
  intros Hlib Ht Hn.
  destruct (fallback_canonical env (Sender row) region Hlib) as (s & Hs & Cs).
  destruct (fallback_canonical env (ToAddress row) region Hlib)
    as (a & Ha & Ca).
  rewrite (assembler_steps _ _ num2name _ senders l _ _ _ Ht Hs), Ha.
  destruct ((SourceType row =? 3) || in_senders senders s).
  - destruct (resolve_returns num2name a l Hn) as (c & l' & -> & _).
    do 3 eexists. split; [reflexivity|].
    split; [apply attrs_of_address|exact Ca].
  - destruct (resolve_returns num2name s
                (if SourceType row =? 2 then l
                 else (l ++ [unrecognized_warning (SourceType row)])%list) Hn)
      as (c & l' & -> & _).
    do 3 eexists. split; [reflexivity|].
    split; [apply attrs_of_address|exact Cs].
Qed.

Lemma fallback_assembler_witness :
  exists attrs l' address,
    _message_row_to_attrs utc_py3 row_unknown N2N_None None None []
      = (Ok attrs, l')
    /\ attrs !! "address" = Some (PyString address)
    /\ canonical address = true.
Proof.
  refine (fallback_assembler_returns utc_py3 row_unknown N2N_None None None []
            1451963045000 jan_5_2016 _ _ _).
  - reflexivity.
  - vm_compute. reflexivity.
  - intros n. discriminate.
Defined.

(** ** Entry point *)

Lemma for_each_lift_Forall2 {A B : Type} (f : A -> result B) xs l ys l' :
  for_each (fun x => lift (f x)) xs l = (Ok ys, l') ->
  Forall2 (fun x y => f x = Ok y) xs ys.
Proof.
  intros H. apply for_each_Forall2 in H.
  induction H as [|x y xs ys (l1 & l2 & Hxy) _ IH]; constructor; [|exact IH].
  unfold lift in Hxy. congruence.
Qed.

Lemma for_each_lift_log {A B : Type} (f : A -> result B) xs l r l' :
  for_each (fun x => lift (f x)) xs l = (r, l') -> l' = l.
Proof.
  revert r l'. induction xs as [|x xs IH]; intros r l'.
  - intros [= <- <-]. reflexivity.
  - cbn [for_each]. unfold_M. destruct (f x) as [y|e].
    + destruct (for_each _ xs l) as [[ys|e] l1];
        specialize (IH _ _ eq_refl); intros [= <- <-]; exact IH.
    + intros [= <- <-]. reflexivity.
Qed.

Lemma serializable_no_None attrs k :
  serializable attrs = true -> attrs !! k <> Some PyNone.
Proof.
  unfold serializable. rewrite List.forallb_forall. intros H Hk.
  apply elem_of_map_to_list, list_elem_of_In in Hk.
  specialize (H _ Hk). discriminate H.
Qed.

Lemma forallb_serializable messages :
  List.forallb serializable messages = true ->
  Forall (fun attrs => forall k, attrs !! k <> Some PyNone) messages.
Proof.
  rewrite List.forallb_forall. intros H. apply List.Forall_forall.
  intros attrs Hin k. apply serializable_no_None. exact (H _ Hin).
Qed.

(** Every step [main] went through when it returns. *)
Lemma main_returns env args rows uuid4 now_ms l st doc l' :
  main env args rows uuid4 now_ms l = (Ok (st, doc), l') ->
  exists senders num2name l1,
    match sender args with
    | None => senders = None
    | Some ss =>
        exists ns,
          Forall2 (fun s n => normalize env s (region args) = Ok n) ss ns
          /\ senders = Some (list_to_set ns)
    end
    /\ match contacts args with
       | None => num2name = N2N_None /\ l1 = l
       | Some contacts_file =>
           _read_contacts env contacts_file None l = (Ok num2name, l1)
       end
    /\ for_each (fun row =>
                   _message_row_to_attrs env row num2name (region args)
                     senders)
         rows l1 = (Ok (children doc), l')
    /\ List.forallb serializable (children doc) = true
    /\ st = 0
    /\ count doc = str (Z.of_nat (length (children doc)))
    /\ backup_set doc = uuid4
    /\ backup_date doc = str now_ms.
Proof.
  unfold main, write. unfold_M. cbn [children].
  destruct (sender args) as [ss|].
  - destruct (for_each _ ss l) as [[ns|] l0] eqn:Es; [|discriminate].
    pose proof (for_each_lift_log _ _ _ _ _ Es) as ->.
    apply for_each_lift_Forall2 in Es.
    destruct (contacts args) as [contacts_file|].
    + destruct (_read_contacts env contacts_file None l)
        as [[num2name|] l2] eqn:Ec; [|discriminate].
      destruct (for_each _ rows l2) as [[messages|] l3] eqn:E;
        [|discriminate].
      destruct (List.forallb serializable messages) eqn:Hw; [|discriminate].
      intros [= <- <- <-]. cbn [count backup_set backup_date children].
      exists (Some (list_to_set ns)), num2name, l2.
      split; [exists ns; split; [exact Es|reflexivity]|].
      repeat split; assumption.
    + destruct (for_each _ rows l) as [[messages|] l3] eqn:E;
        [|discriminate].
      destruct (List.forallb serializable messages) eqn:Hw; [|discriminate].
      intros [= <- <- <-]. cbn [count backup_set backup_date children].
      exists (Some (list_to_set ns)), N2N_None, l.
      split; [exists ns; split; [exact Es|reflexivity]|].
      repeat split; assumption.
  - destruct (contacts args) as [contacts_file|].
    + destruct (_read_contacts env contacts_file None l)
        as [[num2name|] l2] eqn:Ec; [|discriminate].
      destruct (for_each _ rows l2) as [[messages|] l3] eqn:E;
        [|discriminate].
      destruct (List.forallb serializable messages) eqn:Hw; [|discriminate].
      intros [= <- <- <-]. cbn [count backup_set backup_date children].
      exists None, num2name, l2. repeat split; assumption.
    + destruct (for_each _ rows l) as [[messages|] l3] eqn:E;
        [|discriminate].
      destruct (List.forallb serializable messages) eqn:Hw; [|discriminate].
      intros [= <- <- <-]. cbn [count backup_set backup_date children].
      exists None, N2N_None, l. repeat split; assumption.
Qed.

(** What [main] computed when it returns. *)
Lemma main_inv env args rows uuid4 now_ms l st doc l' :
  main env args rows uuid4 now_ms l = (Ok (st, doc), l') ->
  exists senders num2name,
    match sender args with
    | None => senders = None
    | Some ss =>
        exists ns,
          Forall2 (fun s n => normalize env s (region args) = Ok n) ss ns
          /\ senders = Some (list_to_set ns)
    end
    /\ match contacts args with
       | None => num2name = N2N_None
       | Some contacts_file =>
           exists l1 l2,
             _read_contacts env contacts_file None l1 = (Ok num2name, l2)
       end
    /\ Forall2 (fun row attrs =>
                  exists l1 l2,
                    _message_row_to_attrs env row num2name (region args)
                      senders l1 = (Ok attrs, l2))
               rows (children doc).
Proof.
  intros H. apply main_returns in H
    as (senders & num2name & l1 & Hs & Hc & HF & _).
  exists senders, num2name. split; [exact Hs|]. split.
  - destruct (contacts args); [eauto|]. apply Hc.
  - exact (for_each_Forall2 _ _ _ _ _ HF).
Qed.

(** When [main] returns, it returns status 0 and the document it wrote:
    [count] is the number of rows, and the children are the records of the
    rows, in row order, each assembled with the region of the options,
    with the set of the normalized [--sender] numbers, and with the table
    read from the [--contacts] file without a region (no table without the
    option); the log is the one the contacts reader left, followed by what
    the rows logged; and no record holds a value that is [None]. *)
Theorem main_document env args rows uuid4 now_ms l st doc l' :
  main env args rows uuid4 now_ms l = (Ok (st, doc), l') ->
  st = 0
  /\ count doc = str (Z.of_nat (length rows))
  /\ backup_set doc = uuid4
  /\ backup_date doc = str now_ms
  /\ exists senders num2name l1,
       match sender args with
       | None => senders = None
       | Some ss =>
           exists ns,
             Forall2 (fun s n => normalize env s (region args) = Ok n) ss ns
             /\ senders = Some (list_to_set ns)
       end
       /\ match contacts args with
          | None => num2name = N2N_None /\ l1 = l
          | Some contacts_file =>
              _read_contacts env contacts_file None l = (Ok num2name, l1)
          end
       /\ for_each (fun row =>
                      _message_row_to_attrs env row num2name (region args)
                        senders)
            rows l1 = (Ok (children doc), l')
       /\ Forall2 (fun row attrs =>
                     exists la lb,
                       _message_row_to_attrs env row num2name (region args)
                         senders la = (Ok attrs, lb))
                  rows (children doc)
       /\ Forall (fun attrs => forall k, attrs !! k <> Some PyNone)
                 (children doc).
Proof.
  intros H. apply main_returns in H
    as (senders & num2name & l1 & Hs & Hc & HF & Hw & -> & Hn & Hu & Hd).
  pose proof (for_each_Forall2 _ _ _ _ _ HF) as H2.
  split; [reflexivity|].
  split; [rewrite (Forall2_length _ _ _ H2); exact Hn|].
  split; [exact Hu|]. split; [exact Hd|].
  exists senders, num2name, l1.
  split; [exact Hs|]. split; [exact Hc|]. split; [exact HF|].
  split; [exact H2|]. apply forallb_serializable, Hw.
Qed.

(** One contact, one received row. *)
Lemma main_document_witness :
  count {| count := "1"; backup_set := "uuid"; backup_date := "0";
           children := [attrs_of C_locale row_received 1451963045000
                          jan_5_2016 "1" "+15551234567"
                          (PyString "(Unknown)")] |}
  = str (Z.of_nat (length [row_received])).
Proof.
  refine (proj1 (proj2 (main_document utc_py3 args_bob [row_received] "uuid"
                          0 [] 0 _ [no_match_warning "+15551234567"] _))).
  vm_compute. reflexivity.
Defined.

(** Without [--contacts] no run over a non-empty store returns: every
    record would hold [contact_name] [None], which the serializer
    refuses, so the run ends in an exception (at the latest the TypeError
    of the serializer). *)
Theorem main_without_contacts_raises env args row rows uuid4 now_ms l :
  contacts args = None ->
  exists e l', main env args (row :: rows) uuid4 now_ms l = (Raise e, l').
Proof.
  intros Hc.
  destruct (main env args (row :: rows) uuid4 now_ms l)
    as [[[st doc]|e] l'] eqn:E; [|eauto].
  exfalso. apply main_returns in E
    as (senders & num2name & l1 & _ & Hn & HF & Hw & _).
  rewrite Hc in Hn. destruct Hn as [-> ->].
  apply for_each_Forall2 in HF.
  inversion HF as [|? attrs ? messages (la & lb & Hrun) _ Hrows Hdoc].
  rewrite <- Hdoc in Hw. cbn [List.forallb] in Hw.
  apply andb_true_iff in Hw as [Hw _].
  apply (serializable_no_None attrs "contact_name" Hw).
  destruct (assembler_returns_all _ _ _ _ _ _ _ _ Hrun)
    as (date & t & sender & address & c & lr & _ & _ & Hres & -> & _).
  unfold resolve in Hres. injection Hres as <- _.
  apply attrs_of_contact_name.
Qed.

Lemma main_without_contacts_witness :
  exists e l',
    main utc_py3 {| contacts := None; region := Some "US"; sender := None |}
      [row_received] "uuid" 0 [] = (Raise e, l').
Proof.
  exact (main_without_contacts_raises utc_py3
           {| contacts := None; region := Some "US"; sender := None |}
           row_received [] "uuid" 0 [] eq_refl).
Defined.

(** A row whose sender normalizes like one of the [--sender] numbers is
    written with type "2", whatever its [SourceType]: the option's numbers
    and the rows' senders go through the same normalizer with the same
    region. *)
Theorem sender_option_marks_sent
    env args rows uuid4 now_ms l st doc l' ss i row s :
  main env args rows uuid4 now_ms l = (Ok (st, doc), l') ->
  sender args = Some ss ->
  rows !! i = Some row ->
  s ∈ ss ->
  normalize env (Sender row) (region args) = normalize env s (region args) ->
  exists attrs,
    children doc !! i = Some attrs
    /\ attrs !! "type" = Some (PyString "2").
Proof.
  intros Hmain Hss Hrow Hs Hsame.
  destruct (main_inv _ _ _ _ _ _ _ _ _ Hmain)
    as (senders & num2name & Hsend & _ & HF).
  rewrite Hss in Hsend. destruct Hsend as (ns & Hns & ->).
  destruct (Forall2_lookup_l _ _ _ _ _ HF Hrow)
    as (attrs & Hattrs & l1 & l2 & Hrun).
  exists attrs. split; [exact Hattrs|].
  destruct (assembler_returns_all _ _ _ _ _ _ _ _ Hrun)
    as (date & t & sender & address & c & l0 & _ & Hsender & _ & -> & _).
  apply list_elem_of_lookup in Hs as [j Hj].
  destruct (Forall2_lookup_l _ _ _ _ _ Hns Hj) as (n & Hn & Hnorm).
  assert (Hin : in_senders (Some (list_to_set ns)) sender = true).
  { apply bool_decide_eq_true. apply elem_of_list_to_set.
    apply list_elem_of_lookup. exists j.
    rewrite Hsame, Hnorm in Hsender. injection Hsender as <-. exact Hn. }
  rewrite Hin, orb_true_r. apply attrs_of_type.
Qed.

Lemma sender_option_witness :
  exists attrs,
    [attrs_of C_locale row_unknown 1451963045000 jan_5_2016 "2"
       "+15557654321" (PyString "(Unknown)")] !! 0%nat = Some attrs
    /\ attrs !! "type" = Some (PyString "2").
Proof.
  refine (sender_option_marks_sent utc_py3
            {| contacts := Some contacts_bob; region := Some "US";
               sender := Some ["(555) 123-4567"] |}
            [row_unknown] "uuid" 0 [] 0
            {| count := "1"; backup_set := "uuid"; backup_date := "0";
               children := [attrs_of C_locale row_unknown 1451963045000
                              jan_5_2016 "2" "+15557654321"
                              (PyString "(Unknown)")] |}
            [no_match_warning "+15557654321"]
            ["(555) 123-4567"] 0%nat row_unknown "(555) 123-4567"
            _ _ _ _ _).
  - vm_compute. reflexivity.
  - reflexivity.
  - reflexivity.
  - apply list_elem_of_here.
  - vm_compute. reflexivity.
Defined.

(** ** Full mode *)

(** With [phonenumbers], a sender that does not parse is fatal: the row's
    assembly raises the parse error before anything is logged, and [main]
    returns no document for rows that hold such a row. *)
Theorem full_mode_parse_error_is_fatal env lib row reg e :
  phonenumbers env = Some lib ->
  parse lib (Sender row) reg = Raise e ->
  (forall num2name senders l date t,
     timestamp_of env row = Ok (date, t) ->
     _message_row_to_attrs env row num2name reg senders l = (Raise e, l))
  /\ (forall args rows uuid4 now_ms l,
        reg = region args -> row ∈ rows ->
        exists e' l', main env args rows uuid4 now_ms l = (Raise e', l')).
Proof.
  intros Hlib Hparse.
  assert (Hnorm : normalize env (Sender row) reg = Raise e).
  { unfold normalize, _normalize_phone_num. rewrite Hlib, Hparse.
    reflexivity. }
  split.
  - intros num2name senders l date t Ht.
    destruct (timestamp_of_inv _ _ _ _ Ht)
      as (sms_date & secs & H1 & H2 & H3 & _).
    unfold _message_row_to_attrs. unfold_M.
    rewrite H1, H2, H3, Hnorm. reflexivity.
  - intros args rows uuid4 now_ms l -> Hin.
    destruct (main env args rows uuid4 now_ms l) as [[[st doc]|e'] l'] eqn:E;
      [|eauto].
    exfalso.
    destruct (main_inv _ _ _ _ _ _ _ _ _ E) as (senders & num2name & _ & _ & HF).
    apply list_elem_of_lookup in Hin as [i Hi].
    destruct (Forall2_lookup_l _ _ _ _ _ HF Hi)
      as (attrs & _ & l1 & l2 & Hrun).
    destruct (assembler_returns_all _ _ _ _ _ _ _ _ Hrun)
      as (date & t & sender & address & c & l0 & _ & Hsender & _).
    congruence.
Qed.

Lemma full_mode_parse_error_witness :
  _message_row_to_attrs utc_py3_full row_bad_sender N2N_None (Some "US")
    None []
  = (Raise NumberParseException, []).
Proof.
  refine (proj1 (full_mode_parse_error_is_fatal utc_py3_full plus_digits_only
                   row_bad_sender (Some "US") NumberParseException _ _)
            N2N_None None [] 1451963045000 jan_5_2016 _).
  - reflexivity.
  - reflexivity.
  - vm_compute. reflexivity.
Defined.

(** ** Contacts reader, line by line *)

Lemma read_contacts_app env xs ys n acc region l :
  read_contacts_from env (xs ++ ys)%list n acc region l
  = match read_contacts_from env xs n acc region l with
    | (Ok (N2N_dict d), l1) =>
        read_contacts_from env ys (n + Z.of_nat (length xs)) d region l1
    | other => other
    end.
Proof.
  revert n acc. induction xs as [|x xs IH]; intros n acc.
  - cbn [app read_contacts_from length Z.of_nat]. unfold_M.
    rewrite Z.add_0_r. reflexivity.
  - cbn [app read_contacts_from length].
    destruct (PyStr.re_match_blank_or_comment x).
    + rewrite IH. replace (n + 1 + Z.of_nat (length xs))
        with (n + Z.of_nat (S (length xs))) by lia. reflexivity.
    + destruct (PyStr.split_None_1 x) as [|p0 [|p1 more]];
        [reflexivity|reflexivity|].
      unfold_M. destruct (normalize env p0 region) as [number|e];
        [|reflexivity].
      rewrite IH. replace (n + 1 + Z.of_nat (length xs))
        with (n + Z.of_nat (S (length xs))) by lia. reflexivity.
Qed.

Lemma read_contacts_from_outcome env lines n acc region l :
  (exists d, read_contacts_from env lines n acc region l = (Ok (N2N_dict d), l))
  \/ (exists i line,
        read_contacts_from env lines n acc region l
        = (Ok (N2N_int 1),
           (l ++ [missing_name_error (n + Z.of_nat i) line])%list)
        /\ lines !! i = Some line
        /\ malformed_line line
        /\ forall j line', (j < i)%nat -> lines !! j = Some line' ->
                           ~ malformed_line line')
  \/ (exists e i line num name,
        read_contacts_from env lines n acc region l = (Raise e, l)
        /\ lines !! i = Some line
        /\ contact_line line num name
        /\ normalize env num region = Raise e).
Proof.
  revert n acc. induction lines as [|line lines IH]; intros n acc.
  - left. eexists. reflexivity.
  - cbn [read_contacts_from].
    destruct (PyStr.re_match_blank_or_comment line) eqn:Hb.
    + destruct (IH (n + 1) acc)
        as [(d & ->) | [(i & bad & -> & Hi & Hbad & Hfirst)
                       | (e & i & cl & num & name & -> & Hi & Hcl & He)]].
      * left. eauto.
      * right. left. exists (S i), bad.
        split; [do 4 f_equal; lia|]. split; [exact Hi|]. split; [exact Hbad|].
        intros [|j] line' Hj Hl.
        -- injection Hl as <-. intros [Hnb _]. congruence.
        -- apply (Hfirst j line'); [lia|exact Hl].
      * right. right. exists e, (S i), cl, num, name. auto.
    + destruct (PyStr.split_None_1 line) as [|p0 [|p1 more]] eqn:Hs.
      * right. left. exists O, line. unfold_M.
        split; [rewrite Z.add_0_r; reflexivity|]. split; [reflexivity|].
        split; [split; [exact Hb|left; exact Hs]|]. intros j ? Hj. lia.
      * right. left. exists O, line. unfold_M.
        split; [rewrite Z.add_0_r; reflexivity|]. split; [reflexivity|].
        split; [split; [exact Hb|right; eauto]|]. intros j ? Hj. lia.
      * unfold_M. destruct (normalize env p0 region) as [number|e] eqn:Hn.
        -- destruct (IH (n + 1) (<[number:=p1]> acc))
             as [(d & ->) | [(i & bad & -> & Hi & Hbad & Hfirst)
                            | (e & i & cl & num & name & -> & Hi & Hcl & He)]].
           ++ left. eauto.
           ++ right. left. exists (S i), bad.
              split; [do 4 f_equal; lia|]. split; [exact Hi|].
              split; [exact Hbad|].
              intros [|j] line' Hj Hl.
              ** injection Hl as <-. intros [_ [H|[tok H]]]; congruence.
              ** apply (Hfirst j line'); [lia|exact Hl].
           ++ right. right. exists e, (S i), cl, num, name. auto.
        -- right. right. exists e, O, line, p0, p1.
           split; [reflexivity|]. split; [reflexivity|].
           split; [split; [exact Hb|eauto]|exact Hn].
Qed.

(** Reading a contacts file ends in one of three ways.  It returns a table
    and logs nothing; or it returns the integer 1 after logging one error
    that carries the index, counted from 0 over all lines, of the first
    line that is neither skipped nor an entry; or, in full mode only, a
    number fails to parse and the error is raised with nothing logged. *)
Theorem read_contacts_outcome env lines region l :
  (exists d, _read_contacts env lines region l = (Ok (N2N_dict d), l))
  \/ (exists i line,
        _read_contacts env lines region l
        = (Ok (N2N_int 1), (l ++ [missing_name_error (Z.of_nat i) line])%list)
        /\ lines !! i = Some line
        /\ malformed_line line
        /\ forall j line', (j < i)%nat -> lines !! j = Some line' ->
                           ~ malformed_line line')
  \/ (exists e i line num name,
        _read_contacts env lines region l = (Raise e, l)
        /\ phonenumbers env <> None
        /\ lines !! i = Some line
        /\ contact_line line num name
        /\ normalize env num region = Raise e).
Proof.
  unfold _read_contacts.
  destruct (read_contacts_from_outcome env lines 0 ∅ region l)
    as [H | [H | (e & i & line & num & name & H & Hi & Hcl & He)]].
  - left. exact H.
  - right. left. exact H.
  - right. right. exists e, i, line, num, name.
    split; [exact H|]. split; [|auto].
    intros Hlib. unfold normalize in He. rewrite Hlib in He. discriminate.
Qed.

Lemma read_contacts_from_entries env lines n acc region l d l' key name :
  read_contacts_from env lines n acc region l = (Ok (N2N_dict d), l') ->
  d !! key = Some name ->
  acc !! key = Some name
  \/ exists line num,
       line ∈ lines /\ contact_line line num name
       /\ normalize env num region = Ok key.
Proof.
  revert n acc l. induction lines as [|line lines IH]; intros n acc l.
  - cbn [read_contacts_from]. unfold_M. intros [= <- <-] Hk. left. exact Hk.
  - cbn [read_contacts_from].
    destruct (PyStr.re_match_blank_or_comment line) eqn:Hb.
    + intros H Hk. destruct (IH _ _ _ H Hk) as [Ha | (cl & num & Hin & Hcl)];
        [left; exact Ha|].
      right. exists cl, num. split; [apply list_elem_of_further, Hin|exact Hcl].
    + destruct (PyStr.split_None_1 line) as [|p0 [|p1 more]] eqn:Hs;
        unfold_M; [discriminate|discriminate|].
      destruct (normalize env p0 region) as [number|e] eqn:Hn; [|discriminate].
      intros H Hk. destruct (IH _ _ _ H Hk) as [Ha | (cl & num & Hin & Hcl)].
      * destruct (decide (number = key)) as [->|Hne].
        -- rewrite lookup_insert_eq in Ha. injection Ha as ->.
           right. exists line, p0. split; [apply list_elem_of_here|].
           split; [split; [exact Hb|eauto]|exact Hn].
        -- rewrite lookup_insert_ne in Ha by exact Hne. left. exact Ha.
      * right. exists cl, num.
        split; [apply list_elem_of_further, Hin|exact Hcl].
Qed.

(** Every entry of the table that is read comes from a line of the file:
    its key is the normalized number of that line and its name is the rest
    of that line. *)
Theorem read_contacts_entries_come_from_lines
    env lines region l d l' key name :
  _read_contacts env lines region l = (Ok (N2N_dict d), l') ->
  d !! key = Some name ->
  exists line num,
    line ∈ lines /\ contact_line line num name
    /\ normalize env num region = Ok key.
Proof.
  intros H Hk.
  destruct (read_contacts_from_entries _ _ _ _ _ _ _ _ _ _ H Hk)
    as [Ha|Hl]; [|exact Hl].
  rewrite lookup_empty in Ha. discriminate.
Qed.

(** When two lines give the same normalized number the later one wins: a
    line added at the end of a file that was read into a table is stored
    under its number, replacing an earlier name, and no other key
    changes. *)
Theorem read_contacts_last_line_wins
    env lines line num name key region l d l' :
  _read_contacts env lines region l = (Ok (N2N_dict d), l') ->
  contact_line line num name ->
  normalize env num region = Ok key ->
  exists d',
    _read_contacts env (lines ++ [line])%list region l
    = (Ok (N2N_dict d'), l')
    /\ d' !! key = Some name
    /\ forall k, k <> key -> d' !! k = d !! k.
Proof.
  unfold _read_contacts. intros H [Hb (more & Hs)] Hn.
  rewrite read_contacts_app, H. cbn [read_contacts_from].
  rewrite Hb, Hs. unfold_M. rewrite Hn.
  exists (<[key:=name]> d). split; [reflexivity|].
  split; [apply lookup_insert_eq|].
  intros k Hk. apply lookup_insert_ne. congruence.
Qed.

Lemma span_token_app tok r :
  no_space tok = true ->
  match r with String c _ => PyStr.isspace c = true | EmptyString => True end ->
  PyStr.span_token (tok ++ r) = (tok, r).
Proof.
  intros Ht Hr. induction tok as [|c tok IH].
  - change ("" ++ r) with r. destruct r as [|d r']; [reflexivity|].
    cbn [PyStr.span_token]. rewrite Hr. reflexivity.
  - cbn [no_space PyStr.forallb] in Ht. apply andb_prop in Ht as [Hc Ht].
    apply negb_true_iff in Hc.
    change (String c tok ++ r) with (String c (tok ++ r)).
    cbn [PyStr.span_token]. rewrite Hc, (IH Ht). reflexivity.
Qed.

Lemma lstrip_app_space sep r :
  all_space sep = true -> PyStr.lstrip (sep ++ r) = PyStr.lstrip r.
Proof.
  induction sep as [|c sep IH]; [reflexivity|].
  cbn [all_space PyStr.forallb]. intros [Hc Hs]%andb_prop.
  change (String c sep ++ r) with (String c (sep ++ r)).
  cbn [PyStr.lstrip]. rewrite Hc. apply IH. exact Hs.
Qed.

Lemma not_space_not_newline c :
  PyStr.isspace c = false -> Ascii.eqb c PyStr.newline = false.
Proof.
  intros H. destruct (Ascii.eqb_spec c PyStr.newline) as [->|]; [|reflexivity].
  discriminate H.
Qed.

(** A line made of a number, some whitespace and a name is an entry whose
    name is everything after that whitespace, as it stands. *)
Lemma contact_line_intro tok sep name :
  tok <> "" -> no_space tok = true -> PyStr.startswith "#" tok = false ->
  sep <> "" -> all_space sep = true ->
  name <> "" -> PyStr.lstrip name = name ->
  contact_line (tok ++ sep ++ name) tok name.
Proof.
  intros Ht1 Ht2 Ht3 Hs1 Hs2 Hn1 Hn2.
  destruct tok as [|c tok']; [congruence|].
  pose proof Ht2 as Ht2'. cbn [no_space PyStr.forallb] in Ht2'.
  apply andb_prop in Ht2' as [Hc _]. apply negb_true_iff in Hc.
  cbn [PyStr.startswith] in Ht3. rewrite andb_true_r, Ascii.eqb_sym in Ht3.
  split.
  - change (String c tok' ++ sep ++ name) with (String c (tok' ++ sep ++ name)).
    cbn [PyStr.re_match_blank_or_comment].
    rewrite Ht3, Hc, (not_space_not_newline c Hc). reflexivity.
  - exists []. unfold PyStr.split_None_1.
    change (String c tok' ++ sep ++ name) with (String c (tok' ++ sep ++ name)).
    cbn [PyStr.lstrip]. rewrite Hc.
    change (String c (tok' ++ sep ++ name)) with (String c tok' ++ sep ++ name).
    rewrite (span_token_app (String c tok') (sep ++ name) Ht2).
    + rewrite (lstrip_app_space sep name Hs2), Hn2.
      destruct name; [congruence|reflexivity].
    + destruct sep as [|d sep']; [congruence|].
      cbn [all_space PyStr.forallb] in Hs2. apply andb_prop in Hs2 as [Hd _].
      exact Hd.
Qed.

(** A one-line contacts file "number whitespace name" gives the table that
    maps the normalized number to the name, kept to the end of the line:
    inner and trailing whitespace and the newline belong to the name. *)
Theorem read_contacts_keeps_name_verbatim env tok sep name region l :
  tok <> "" -> no_space tok = true -> PyStr.startswith "#" tok = false ->
  sep <> "" -> all_space sep = true ->
  name <> "" -> PyStr.lstrip name = name ->
  _read_contacts env [tok ++ sep ++ name] region l
  = match normalize env tok region with
    | Ok key => (Ok (N2N_dict {[ key := name ]}), l)
    | Raise e => (Raise e, l)
    end.
Proof.
  intros Ht1 Ht2 Ht3 Hs1 Hs2 Hn1 Hn2.
  destruct (contact_line_intro tok sep name Ht1 Ht2 Ht3 Hs1 Hs2 Hn1 Hn2)
    as [Hb (more & Hs)].
  unfold _read_contacts. cbn [read_contacts_from]. rewrite Hb, Hs. unfold_M.
  destruct (normalize env tok region); reflexivity.
Qed.

Lemma read_contacts_verbatim_witness :
  _read_contacts utc_py3
    ["555-123-4567" ++ "  " ++ ("John  Smith " ++ newline_str)] (Some "US") []
  = (Ok (N2N_dict {[ "+15551234567" := "John  Smith " ++ newline_str ]}), []).
Proof.
  refine (read_contacts_keeps_name_verbatim utc_py3 "555-123-4567" "  "
            ("John  Smith " ++ newline_str) (Some "US") [] _ _ _ _ _ _ _);
    (discriminate || reflexivity).
Defined.

Lemma read_contacts_entries_witness :
  exists line num,
    line ∈ contacts_bob
    /\ contact_line line num ("Bob" ++ newline_str)
    /\ normalize utc_py3 num (Some "US") = Ok "+15551234567".
Proof.
  refine (read_contacts_entries_come_from_lines utc_py3 contacts_bob
            (Some "US") [] {[ "+15551234567" := "Bob" ++ newline_str ]} []
            "+15551234567" ("Bob" ++ newline_str) _ _).
  - vm_compute. reflexivity.
  - vm_compute. reflexivity.
Defined.

Lemma read_contacts_last_line_witness :
  exists d',
    _read_contacts utc_py3
      (contacts_bob ++ [("555-123-4567 Robert" ++ newline_str)%string])%list
      (Some "US") []
    = (Ok (N2N_dict d'), [])
    /\ d' !! "+15551234567" = Some ("Robert" ++ newline_str)
    /\ forall k, k <> "+15551234567" ->
         d' !! k
         = ({[ "+15551234567" := "Bob" ++ newline_str ]} : gmap string string)
             !! k.
Proof.
  refine (read_contacts_last_line_wins utc_py3 contacts_bob
            ("555-123-4567 Robert" ++ newline_str) "555-123-4567"
            ("Robert" ++ newline_str) "+15551234567"
            (Some "US") [] _ [] _ _ _).
  - vm_compute. reflexivity.
  - split; [reflexivity|]. exists []. reflexivity.
  - vm_compute. reflexivity.
Defined.

Lemma lstrip_decompose s :
  exists lead,
    all_space lead = true /\ s = lead ++ PyStr.lstrip s
    /\ PyStr.lstrip (PyStr.lstrip s) = PyStr.lstrip s.
Proof.
  induction s as [|c s (lead & Hl & Hs & Hi)].
  - exists "". repeat split.
  - cbn [PyStr.lstrip]. destruct (PyStr.isspace c) eqn:Hc.
    + exists (String c lead). split; [cbn; rewrite Hc; exact Hl|].
      split; [|exact Hi].
      change (String c lead ++ PyStr.lstrip s)
        with (String c (lead ++ PyStr.lstrip s)).
      rewrite <- Hs. reflexivity.
    + exists "". split; [reflexivity|]. split; [reflexivity|].
      cbn [PyStr.lstrip]. rewrite Hc. reflexivity.
Qed.

Lemma span_token_decompose s t r :
  PyStr.span_token s = (t, r) ->
  s = t ++ r /\ no_space t = true
  /\ match r with String c _ => PyStr.isspace c = true | EmptyString => True end.
Proof.
  revert t r. induction s as [|c s IH]; intros t r; cbn [PyStr.span_token].
  - intros [= <- <-]. repeat split.
  - destruct (PyStr.isspace c) eqn:Hc.
    + intros [= <- <-]. repeat split. exact Hc.
    + destruct (PyStr.span_token s) as [t' r'].
      intros [= <- <-]. destruct (IH t' r' eq_refl) as (-> & Ht & Hr).
      split; [reflexivity|]. split; [|exact Hr].
      cbn [no_space PyStr.forallb]. rewrite Hc. exact Ht.
Qed.

(** The shape of an entry line: optional whitespace, the number as one
    whitespace-free token, whitespace, and the name, which starts at the
    next visible character and runs to the end of the line.  A number
    written with inner spaces is therefore cut at its first space. *)
Theorem contact_line_shape line num name :
  contact_line line num name ->
  exists lead sep,
    line = lead ++ num ++ sep ++ name
    /\ all_space lead = true
    /\ num <> "" /\ no_space num = true
    /\ sep <> "" /\ all_space sep = true
    /\ name <> "" /\ PyStr.lstrip name = name.
Proof.
  intros [_ (more & Hs)]. unfold PyStr.split_None_1 in Hs.
  destruct (lstrip_decompose line) as (lead & Hlead & Hline & _).
  destruct (PyStr.lstrip line) as [|c s'] eqn:El; [discriminate|].
  destruct (PyStr.span_token (String c s')) as [tok rest] eqn:Et.
  destruct (span_token_decompose _ _ _ Et) as (Htr & Htok & Hrest).
  destruct (lstrip_decompose rest) as (sep & Hsep & Hr & Hidem).
  destruct (PyStr.lstrip rest) as [|d r] eqn:Er; [discriminate|].
  injection Hs as <- <- <-.
  exists lead, sep. rewrite Hline, Htr. rewrite Hr at 1.
  split; [reflexivity|]. split; [exact Hlead|].
  assert (Hc : PyStr.isspace c = false).
  { pose proof (lstrip_decompose line) as (_ & _ & _ & H).
    rewrite El in H. cbn [PyStr.lstrip] in H.
    destruct (PyStr.isspace c); [|reflexivity].
    exfalso. clear -H.
    assert (Hlen : forall s, (String.length (PyStr.lstrip s)
                              <= String.length s)%nat).
    { induction s as [|x s IH]; [reflexivity|]. cbn [PyStr.lstrip].
      destruct (PyStr.isspace x); cbn [String.length]; lia. }
    apply (f_equal String.length) in H. pose proof (Hlen s').
    cbn [String.length] in H. lia. }
  split.
  { intros ->. change ("" ++ rest) with rest in Htr. subst rest.
    cbn [PyStr.span_token] in Et. rewrite Hc in Et.
    destruct (PyStr.span_token s'). discriminate. }
  split; [exact Htok|]. split.
  { intros ->. change ("" ++ String d r) with (String d r) in Hr.
    rewrite Hr in Hrest. cbn [PyStr.lstrip] in Hidem.
    destruct (PyStr.isspace d); [|discriminate].
    apply (f_equal String.length) in Hidem.
    assert (Hlen : forall s, (String.length (PyStr.lstrip s)
                              <= String.length s)%nat).
    { induction s as [|x s IH]; [reflexivity|]. cbn [PyStr.lstrip].
      destruct (PyStr.isspace x); cbn [String.length]; lia. }
    pose proof (Hlen r). cbn [String.length] in Hidem. lia. }
  split; [exact Hsep|]. split; [discriminate|exact Hidem].
Qed.

Lemma contact_line_shape_witness :
  exists lead sep,
    "(555) 123-4567 Bob" = lead ++ "(555)" ++ sep ++ "123-4567 Bob"
    /\ all_space lead = true
    /\ "(555)" <> "" /\ no_space "(555)" = true
    /\ sep <> "" /\ all_space sep = true
    /\ "123-4567 Bob" <> "" /\ PyStr.lstrip "123-4567 Bob" = "123-4567 Bob".
Proof.
  refine (contact_line_shape "(555) 123-4567 Bob" "(555)" "123-4567 Bob" _).
  split; [reflexivity|]. exists []. reflexivity.
Defined.

Lemma fallback_without_region env s :
  phonenumbers env = None ->
  normalize env s None = Ok ("+" ++ PyStr.re_sub_non_digits s).
Proof.
  intros H. unfold normalize. rewrite H, fallback_eq.
  rewrite andb_false_r. reflexivity.
Qed.

(** When no region is given and none can be guessed, fallback mode
    leaves every number without a country code: the address of each
    record written is "+" followed by the digits of the row's sender or
    recipient, ten-digit numbers included. *)
Theorem unguessed_region_leaves_numbers_bare
    env os_name locale_name args rows uuid4 now_ms l st doc l' i row attrs :
  phonenumbers env = None ->
  region args = None ->
  _guess_region os_name locale_name = None ->
  main_from_options env os_name locale_name args rows uuid4 now_ms l
    = (Ok (st, doc), l') ->
  rows !! i = Some row ->
  children doc !! i = Some attrs ->
  exists raw,
    (raw = Sender row \/ raw = ToAddress row)
    /\ attrs !! "address"
       = Some (PyString ("+" ++ PyStr.re_sub_non_digits raw)).
Proof.
  intros Hlib Hreg Hguess Hmain Hrow Hattrs.
  unfold main_from_options, main_region, _guess_region_or_warn in Hmain.
  rewrite Hreg, Hguess in Hmain. unfold_M.
  destruct (main_inv _ _ _ _ _ _ _ _ _ Hmain)
    as (senders & num2name & _ & _ & HF). cbn [region] in HF.
  destruct (Forall2_lookup_l _ _ _ _ _ HF Hrow)
    as (attrs' & Hattrs' & l1 & l2 & Hrun).
  rewrite Hattrs in Hattrs'. injection Hattrs' as <-.
  destruct (assembler_returns_all _ _ _ _ _ _ _ _ Hrun)
    as (date & t & sender & address & c & l0 & _ & Hs & _ & -> & Ha).
  rewrite attrs_of_address.
  rewrite (fallback_without_region _ _ Hlib) in Hs. injection Hs as <-.
  destruct ((SourceType row =? 3) || in_senders senders _).
  - rewrite (fallback_without_region _ _ Hlib) in Ha. injection Ha as <-.
    exists (ToAddress row). auto.
  - subst address. exists (Sender row). auto.
Qed.

Lemma unguessed_region_witness :
  exists raw,
    (raw = Sender row_received \/ raw = ToAddress row_received)
    /\ attrs_of C_locale row_received 1451963045000 jan_5_2016 "1"
         "+5551234567" (PyString ("Bob" ++ newline_str)) !! "address"
       = Some (PyString ("+" ++ PyStr.re_sub_non_digits raw)).
Proof.
  refine (unguessed_region_leaves_numbers_bare utc_py3 "nt" (Some "en-US")
            {| contacts := Some contacts_bob; region := None;
               sender := None |}
            [row_received] "uuid" 0 [] 0
            {| count := "1"; backup_set := "uuid"; backup_date := "0";
               children := [attrs_of C_locale row_received 1451963045000
                              jan_5_2016 "1" "+5551234567"
                              (PyString ("Bob" ++ newline_str))] |}
            _ 0%nat row_received _ _ _ _ _ _ _).
  - reflexivity.
  - reflexivity.
  - reflexivity.
  - vm_compute. reflexivity.
  - reflexivity.
  - reflexivity.
Defined.
